(** * Daily breakout backtest with compounded capital

    A shallow embedding of [final_script.py]: the per-symbol backtest
    (lines 78-119), the per-symbol summary (lines 121-128), the highlights
    of the backtest sheet (lines 139-166), the master row (lines 172-183),
    the per-ticker loop with its [try]/[except] (lines 37-186) and the
    master summary with its best and worst performer (lines 191-249).

    Numbers.  The script computes on Python floats.  Prices, amounts and
    capital are embedded as exact rationals ([Q]); quantities are integers
    ([Z]) as [int(...)] returns them.  Rounding error, infinities and NaN of
    binary floating point are outside this embedding.  A division by zero
    and an access to a missing row or column raise, as in Python. *)

From Stdlib Require Import List ZArith QArith Qround Bool String Lia.
From Stdlib Require Import Sorted Lqa.
Import ListNotations.
Local Open Scope Q_scope.

(** ** Python primitives *)

Inductive PyError : Set :=
| ZeroDivisionError
| IndexError
| KeyError
| DownloadError.

Inductive result (A : Type) : Type :=
| Ok (a : A)
| Raise (e : PyError).
Arguments Ok {A} a.
Arguments Raise {A} e.

Definition bind {A B : Type} (r : result A) (k : A -> result B) : result B :=
  match r with
  | Ok a => k a
  | Raise e => Raise e
  end.

Notation "x <- r ;; k" := (bind r (fun x => k))
  (at level 61, r at next level, right associativity).

(** [a > b] on numbers. *)
Definition Qgtb (a b : Q) : bool := negb (Qle_bool a b).

(** [a < b] on numbers. *)
Definition Qltb (a b : Q) : bool := negb (Qle_bool b a).

(** [a / b]: raises [ZeroDivisionError] on a zero divisor.  When the
    dividend is a numpy float the script gets inf or nan there and it is the
    [int(...)] around the quotient that raises, with another exception
    class; the embedding has this one exception for a sizing that fails. *)
Definition py_div (a b : Q) : result Q :=
  if Qeq_bool b 0 then Raise ZeroDivisionError else Ok (a / b).

(** [int(x)]: truncation toward zero. *)
Definition py_int (x : Q) : Z := Z.quot (Qnum x) (Zpos (Qden x)).

(** Round half to even, the rule of Python's [round]. *)
Definition round_half_even (x : Q) : Z :=
  let f := Qfloor x in
  match Qcompare (x - inject_Z f) (1 # 2) with
  | Lt => f
  | Gt => (f + 1)%Z
  | Eq => if Z.even f then f else (f + 1)%Z
  end.

(** [round(x, 2)]. *)
Definition py_round2 (x : Q) : Q :=
  inject_Z (round_half_even (x * 100)) / 100.

(** ** Data model *)

(** A row of the cleaned frame (line 67):
    ["Date", "Time", "Close", "High", "Low", "Open", "Volume"].
    Dates and times are ordinals. *)
Record PricePoint : Set := mkPricePoint {
  Date : Z;
  Time : Z;
  Close : Q;
  High : Q;
  Low : Q;
  Open : Q;
  Volume : Q
}.

Inductive Trend : Set :=
| UpsideFollow
| UpsideFake
| DownsideFollow
| DownsideFake
| Neutral.

(** The label written to the ["Trend"] column. *)
Definition label (t : Trend) : string :=
  match t with
  | UpsideFollow => "Upside Follow"
  | UpsideFake => "Upside Fake"
  | DownsideFollow => "Downside Follow"
  | DownsideFake => "Downside Fake"
  | Neutral => "Neutral"
  end.

Definition Trend_eq_dec (a b : Trend) : {a = b} + {a <> b}.
Proof. decide equality. Defined.

(** The dict appended to [results] (lines 111-119). *)
Record Trade : Set := mkTrade {
  tDate : Z;
  tTrend : Trend;
  Entry : option Q;
  Exit : Q;
  Quantity : Z;
  PnL : Q;
  Capital : Q
}.

(** ** Daily sessions (lines 78, 82-88) *)

(** [data.groupby("Date").first()]: one row per distinct date, the groups
    in ascending date order.  [first] takes, column by column, the first
    cell that is not missing; no cell is missing in this embedding, so the
    row kept for a date is the first row met for it. *)
Fixpoint insert_first (p : PricePoint) (l : list PricePoint) : list PricePoint :=
  match l with
  | [] => [p]
  | q :: l' =>
      if (Date p <? Date q)%Z then p :: l
      else if (Date p =? Date q)%Z then l
      else q :: insert_first p l'
  end.

Definition first_candles (data : list PricePoint) : list PricePoint :=
  fold_left (fun acc p => insert_first p acc) data [].

(** [data[data["Date"] == day]]. *)
Definition day_data_of (data : list PricePoint) (day : Z) : list PricePoint :=
  filter (fun p => (Date p =? day)%Z) data.

(** [day_data.iloc[-1]]: raises [IndexError] on an empty frame. *)
Definition iloc_last (day_data : list PricePoint) : result PricePoint :=
  match day_data with
  | [] => Raise IndexError
  | p :: l => Ok (last l p)
  end.

(** ** One day of the loop (lines 83-119) *)

(** [(day_data["High"] > first_high).any()]. *)
Definition breaks_up (first_high : Q) (day_data : list PricePoint) : bool :=
  existsb (fun p => Qgtb (High p) first_high) day_data.

(** [(day_data["Low"] < first_low).any()]. *)
Definition breaks_down (first_low : Q) (day_data : list PricePoint) : bool :=
  existsb (fun p => Qltb (Low p) first_low) day_data.

(** The body of the loop, run with [current_capital] as it is on entry.
    The [Capital] field of the trade is [current_capital] after line 109. *)
Definition day_body (current_capital : Q) (row : PricePoint)
    (day_data : list PricePoint) : result Trade :=
  let day := Date row in
  let first_high := High row in
  let first_low := Low row in
  last_row <- iloc_last day_data ;;
  let last_close := Close last_row in
  let exit_price := last_close in
  if breaks_up first_high day_data then
    let entry := first_high in
    q <- py_div current_capital entry ;;
    let invested_qty := py_int q in
    let trend := if Qgtb last_close first_high then UpsideFollow else UpsideFake in
    let pnl := (last_close - entry) * inject_Z invested_qty in
    Ok (mkTrade day trend (Some entry) exit_price invested_qty pnl
          (current_capital + pnl))
  else if breaks_down first_low day_data then
    let entry := first_low in
    q <- py_div current_capital entry ;;
    let invested_qty := py_int q in
    let trend := if Qltb last_close first_low then DownsideFollow else DownsideFake in
    let pnl := (entry - last_close) * inject_Z invested_qty in
    Ok (mkTrade day trend (Some entry) exit_price invested_qty pnl
          (current_capital + pnl))
  else
    Ok (mkTrade day Neutral None exit_price 0 0 (current_capital + 0)).

(** ** The capital fold (lines 79-119) *)

(** The [for] loop over [first_candles], with the state it mutates:
    [current_capital] and [results]. *)
Fixpoint day_loop (data : list PricePoint) (rows : list PricePoint)
    (current_capital : Q) (results : list Trade) : result (list Trade * Q) :=
  match rows with
  | [] => Ok (results, current_capital)
  | row :: rows' =>
      t <- day_body current_capital row (day_data_of data (Date row)) ;;
      day_loop data rows' (Capital t) (results ++ [t])
  end.

Definition backtest (data : list PricePoint) (initial_capital : Q)
    : result (list Trade * Q) :=
  day_loop data (first_candles data) initial_capital [].

(** ** The per-symbol summary (lines 121-128) *)

(** [trend_df["Trend"].value_counts().to_dict()], read through
    [summary.get(label, 0)]: the number of rows carrying a label, [0] for a
    label that is no key.  [pd.DataFrame([])] has no column at all, so the
    access to ["Trend"] raises [KeyError] on an empty [results]. *)
Definition value_counts (results : list Trade) : result (Trend -> nat) :=
  match results with
  | [] => Raise KeyError
  | _ :: _ => Ok (fun k => count_occ Trend_eq_dec (map tTrend results) k)
  end.

(** Line 128: [(follow_trades / total_trades * 100) if total_trades > 0 else 0]. *)
Definition win_rate_of (follow_trades total_trades : nat) : Q :=
  if (0 <? total_trades)%nat
  then inject_Z (Z.of_nat follow_trades) / inject_Z (Z.of_nat total_trades) * 100
  else 0.

Record Summary : Set := mkSummary {
  total_trades : nat;
  upside_follow : nat;
  downside_follow : nat;
  upside_fake : nat;
  downside_fake : nat;
  win_rate : Q;
  final_capital : Q;
  total_profit : Q
}.

Definition summarize (results : list Trade) (current_capital initial_capital : Q)
    : result Summary :=
  let final_capital := current_capital in
  let total_profit := final_capital - initial_capital in
  summary <- value_counts results ;;
  let total_trades := List.length results in
  let follow_trades := (summary UpsideFollow + summary DownsideFollow)%nat in
  let win_rate := win_rate_of follow_trades total_trades in
  Ok (mkSummary total_trades (summary UpsideFollow) (summary DownsideFollow)
        (summary UpsideFake) (summary DownsideFake)
        win_rate final_capital total_profit).

(** ** The per-ticker loop (lines 20, 32-186) *)

Definition initial_capital : Q := 100000.

(** The dict appended to [master_results] (lines 172-183). *)
Record MasterRow : Set := mkMasterRow {
  Ticker : string;
  TotalTrades : nat;
  UpsideFollowCount : nat;
  DownsideFollowCount : nat;
  UpsideFakeCount : nat;
  DownsideFakeCount : nat;
  WinRatePct : Q;
  FinalCapital : Q;
  Profit : Q;
  TotalProfitYearEnd : Q
}.

Section Tickers.

(** [yf.download]: the frame fetched for a symbol, or an exception.  The
    workbook files written on the way are not part of this embedding. *)
Variable yf_download : string -> result (list PricePoint).
Variable capital0 : Q.

(** The body of the [try] block.  [Ok None] is the [continue] of line 52. *)
Definition process_symbol (symbol : string) : result (option MasterRow) :=
  data <- yf_download symbol ;;
  match data with
  | [] => Ok None
  | _ :: _ =>
      r <- backtest data capital0 ;;
      let '(results, current_capital) := r in
      s <- summarize results current_capital capital0 ;;
      Ok (Some (mkMasterRow symbol (total_trades s)
                  (upside_follow s) (downside_follow s)
                  (upside_fake s) (downside_fake s)
                  (py_round2 (win_rate s))
                  (py_round2 (final_capital s))
                  (py_round2 (total_profit s))
                  (py_round2 (final_capital s - capital0))))
  end.

(** [for symbol in tickers: try: ... except Exception: ...], with the
    list [master_results] it appends to. *)
Fixpoint ticker_loop (tickers : list string) (master_results : list MasterRow)
    : list MasterRow :=
  match tickers with
  | [] => master_results
  | symbol :: rest =>
      match process_symbol symbol with
      | Ok (Some row) => ticker_loop rest (master_results ++ [row])
      | Ok None => ticker_loop rest master_results
      | Raise _ => ticker_loop rest master_results
      end
  end.

Definition run (tickers : list string) : list MasterRow :=
  ticker_loop tickers [].

End Tickers.

(** The script: the run over the configured tickers with the configured
    initial capital (line 20). *)
Definition script (yf_download : string -> result (list PricePoint))
    (tickers : list string) : list MasterRow :=
  run yf_download initial_capital tickers.

(** * Vocabulary of the properties *)

(** Some bar of the day has a high above [h]. *)
Definition UpBreak (h : Q) (day_data : list PricePoint) : Prop :=
  Exists (fun p => h < High p) day_data.

(** Some bar of the day has a low below [l]. *)
Definition DownBreak (l : Q) (day_data : list PricePoint) : Prop :=
  Exists (fun p => Low p < l) day_data.

(** What a day that did not raise has computed, branch by branch. *)
Inductive day_spec (c : Q) (row : PricePoint) (dd : list PricePoint)
    (last_close : Q) (t : Trade) : Prop :=
| day_up :
    UpBreak (High row) dd ->
    ~ High row == 0 ->
    t = mkTrade (Date row)
          (if Qgtb last_close (High row) then UpsideFollow else UpsideFake)
          (Some (High row)) last_close (py_int (c / High row))
          ((last_close - High row) * inject_Z (py_int (c / High row)))
          (c + (last_close - High row) * inject_Z (py_int (c / High row))) ->
    day_spec c row dd last_close t
| day_down :
    ~ UpBreak (High row) dd ->
    DownBreak (Low row) dd ->
    ~ Low row == 0 ->
    t = mkTrade (Date row)
          (if Qltb last_close (Low row) then DownsideFollow else DownsideFake)
          (Some (Low row)) last_close (py_int (c / Low row))
          ((Low row - last_close) * inject_Z (py_int (c / Low row)))
          (c + (Low row - last_close) * inject_Z (py_int (c / Low row))) ->
    day_spec c row dd last_close t
| day_neutral :
    ~ UpBreak (High row) dd ->
    ~ DownBreak (Low row) dd ->
    t = mkTrade (Date row) Neutral None last_close 0 0 (c + 0) ->
    day_spec c row dd last_close t.

(** The capital a day starts from: the initial capital for the first day,
    the [Capital] of the trade before it for any other. *)
Definition capital_before (initial : Q) (results : list Trade) (i : nat) : Q :=
  nth i (initial :: map Capital results) initial.

(** The days of a run that did not raise, each started from the capital the
    day before it left. *)
Inductive fold_trace (data : list PricePoint)
    : Q -> list PricePoint -> list Trade -> Q -> Prop :=
| trace_nil c : fold_trace data c [] [] c
| trace_cons c row rows t ts fin :
    day_body c row (day_data_of data (Date row)) = Ok t ->
    fold_trace data (Capital t) rows ts fin ->
    fold_trace data c (row :: rows) (t :: ts) fin.

(** The reading of C4 that the code does not satisfy: the quantity is the
    floor of capital over entry, zero without entry, and never negative. *)
Definition quantity_is_floor : Prop :=
  forall data init results fin,
    backtest data init = Ok (results, fin) ->
    forall i t, nth_error results i = Some t ->
      (forall e, Entry t = Some e ->
         Quantity t = Qfloor (capital_before init results i / e)) /\
      (Entry t = None -> Quantity t = 0%Z) /\
      (0 <= Quantity t)%Z.

(** The trades of a list that carry a trend. *)
Definition count_trend (k : Trend) (results : list Trade) : nat :=
  count_occ Trend_eq_dec (map tTrend results) k.

(** The days of a trade list with a decision: those not Neutral. *)
Definition decided (results : list Trade) : nat :=
  List.length
    (filter (fun t => if Trend_eq_dec (tTrend t) Neutral then false else true)
       results).

(** The reading of C9 that the code does not satisfy: the win rate is taken
    over the decided days only. *)
Definition win_rate_over_decided : Prop :=
  forall data init results fin s,
    backtest data init = Ok (results, fin) ->
    summarize results fin init = Ok s ->
    win_rate s ==
      100 * inject_Z (Z.of_nat (count_trend UpsideFollow results
                                + count_trend DownsideFollow results))
      / inject_Z (Z.of_nat (decided results)).

(** ** Sample sessions *)

(** A bar with the given date, time, high, low and close. *)
Definition bar (d tm : Z) (h l c : Q) : PricePoint :=
  mkPricePoint d tm c h l c 0.

(** Two days: an upside breakout that follows, a downside one that follows. *)
Definition two_follow_days : list PricePoint :=
  [bar 1 0 100 95 98; bar 1 1 105 97 110;
   bar 2 0 50 45 47; bar 2 1 48 40 42].

(** A day whose later bar breaks both bounds of the first one. *)
Definition both_sides_day : list PricePoint :=
  [bar 1 0 100 95 98; bar 1 1 105 90 92].

(** A day that stays inside its first bar. *)
Definition quiet_day : list PricePoint :=
  [bar 1 0 20 18 19; bar 1 1 20 18 19].

(** A downside fake that loses more than the capital, then an upside day. *)
Definition ruin_days : list PricePoint :=
  [bar 1 0 100 10 50; bar 1 1 60 5 50;
   bar 2 0 7 6 7; bar 2 1 8 6 8].

(** An upside follow, then a quiet day. *)
Definition follow_then_quiet : list PricePoint :=
  [bar 1 0 100 95 98; bar 1 1 105 97 110;
   bar 2 0 20 18 19; bar 2 1 20 18 19].

(** What the sample tickers fetch: ["A"] two days, ["B"] an empty frame,
    ["C"] a day whose first high is zero; any other symbol fails to
    download. *)
Definition sample_download (symbol : string) : result (list PricePoint) :=
  if String.eqb symbol "A" then Ok two_follow_days
  else if String.eqb symbol "B" then Ok []
  else if String.eqb symbol "C" then Ok [bar 1 0 0 0 0; bar 1 1 5 0 0]
  else Raise DownloadError.

(** * The sheets written from the results *)

(** ** Highlights of the backtest sheet (lines 139-166) *)

(** The two fills of lines 139-140. *)
Inductive Fill : Set :=
| green_fill
| red_fill.

(** Line 158: [green_fill if pnl_value > 0 else red_fill]. *)
Definition pnl_highlight (pnl_value : Q) : Fill :=
  if Qgtb pnl_value 0 then green_fill else red_fill.

(** Line 164: [green_fill if capital_value > prev_capital else red_fill]. *)
Definition capital_highlight (capital_value prev_capital : Q) : Fill :=
  if Qgtb capital_value prev_capital then green_fill else red_fill.

(** The loop over the sheet rows (lines 153-164), one row per trade: the
    fills of the ["PnL"] cell and of the ["Capital"] cell.  [prev_capital]
    is [initial_capital] for the first row and the ["Capital"] cell of the
    row above for the others.  Both columns are in the sheet and none of
    their cells is empty, the sheet being written from a trade list that is
    not empty. *)
Fixpoint highlight_rows (prev_capital : Q) (rows : list Trade)
    : list (Fill * Fill) :=
  match rows with
  | [] => []
  | t :: rest =>
      (pnl_highlight (PnL t), capital_highlight (Capital t) prev_capital)
      :: highlight_rows (Capital t) rest
  end.

Definition backtest_highlights (initial_capital : Q) (results : list Trade)
    : list (Fill * Fill) :=
  highlight_rows initial_capital results.

(** ** The master summary (lines 191-249) *)

(** Lines 215-218: the fill of a ["Win Rate %"] cell, if any. *)
Definition win_rate_highlight (value : Q) : option Fill :=
  if Qgtb value 60 then Some green_fill
  else if Qltb value 40 then Some red_fill
  else None.

(** One step of [idxmax] on ["Final Capital"]: a later row replaces the
    kept one only with a larger value, so the first of the largest wins. *)
Definition pick_max (kept r : MasterRow) : MasterRow :=
  if Qgtb (FinalCapital r) (FinalCapital kept) then r else kept.

(** One step of [idxmin] on ["Final Capital"]. *)
Definition pick_min (kept r : MasterRow) : MasterRow :=
  if Qltb (FinalCapital r) (FinalCapital kept) then r else kept.

Record MasterReport : Set := mkMasterReport {
  summary_rows : list MasterRow;
  win_rate_fills : list (option Fill);
  best_stock : MasterRow;
  worst_stock : MasterRow
}.

(** [if master_results: ... else: ...]: [None] is the branch that writes
    no summary (line 249). *)
Definition master_summary (master_results : list MasterRow)
    : option MasterReport :=
  match master_results with
  | [] => None
  | r :: rest =>
      Some (mkMasterReport master_results
              (map (fun x => win_rate_highlight (WinRatePct x)) master_results)
              (fold_left pick_max rest r)
              (fold_left pick_min rest r))
  end.

(** * Further vocabulary *)

(** Rows in strictly ascending date order. *)
Definition date_lt (a b : PricePoint) : Prop := (Date a < Date b)%Z.

(** [find]: the first row of a frame with a given date. *)
Definition first_of_date (d : Z) (data : list PricePoint) : option PricePoint :=
  find (fun p => (Date p =? d)%Z) data.


(** The master rows of the symbols that were processed to the end. *)
Definition rows_of (yf_download : string -> result (list PricePoint))
    (capital0 : Q) (tickers : list string) : list MasterRow :=
  flat_map (fun s => match process_symbol yf_download capital0 s with
                     | Ok (Some row) => [row]
                     | _ => []
                     end) tickers.

(** * Properties *)

(** ** Comparisons and breakouts *)

Lemma Qgtb_true (a b : Q) : Qgtb a b = true <-> b < a.
Proof.
  unfold Qgtb. rewrite negb_true_iff. split; intro H.
  - apply Qnot_le_lt. intro Hle. apply Qle_bool_iff in Hle. congruence.
  - destruct (Qle_bool a b) eqn:E; [|reflexivity].
    apply Qle_bool_iff in E. exfalso. exact (Qlt_not_le _ _ H E).
Qed.

Lemma Qgtb_false (a b : Q) : Qgtb a b = false <-> ~ b < a.
Proof.
  rewrite <- Qgtb_true. destruct (Qgtb a b); split; congruence.
Qed.

Lemma Qltb_true (a b : Q) : Qltb a b = true <-> a < b.
Proof. exact (Qgtb_true b a). Qed.

Lemma Qltb_false (a b : Q) : Qltb a b = false <-> ~ a < b.
Proof. exact (Qgtb_false b a). Qed.

Lemma breaks_up_true h dd : breaks_up h dd = true <-> UpBreak h dd.
Proof.
  unfold breaks_up, UpBreak. rewrite existsb_exists, Exists_exists.
  split; intros [p [Hin Hp]]; exists p; split; auto; now apply Qgtb_true.
Qed.

Lemma breaks_down_true l dd : breaks_down l dd = true <-> DownBreak l dd.
Proof.
  unfold breaks_down, DownBreak. rewrite existsb_exists, Exists_exists.
  split; intros [p [Hin Hp]]; exists p; split; auto; now apply Qltb_true.
Qed.

Lemma breaks_up_false h dd : breaks_up h dd = false <-> ~ UpBreak h dd.
Proof.
  rewrite <- breaks_up_true. destruct (breaks_up h dd); split; congruence.
Qed.

Lemma breaks_down_false l dd : breaks_down l dd = false <-> ~ DownBreak l dd.
Proof.
  rewrite <- breaks_down_true. destruct (breaks_down l dd); split; congruence.
Qed.

Lemma py_div_ok a b q : py_div a b = Ok q -> ~ b == 0 /\ q = a / b.
Proof.
  unfold py_div. destruct (Qeq_bool b 0) eqn:E; [discriminate|].
  intro H. injection H as <-. split; [|reflexivity].
  intro Hb. apply Qeq_bool_iff in Hb. congruence.
Qed.

Lemma py_div_nonzero a b : ~ b == 0 -> py_div a b = Ok (a / b).
Proof.
  intro Hb. unfold py_div. destruct (Qeq_bool b 0) eqn:E; [|reflexivity].
  apply Qeq_bool_iff in E. contradiction.
Qed.

Lemma py_div_zero a b : b == 0 -> py_div a b = Raise ZeroDivisionError.
Proof.
  intro Hb. unfold py_div. apply Qeq_bool_iff in Hb. now rewrite Hb.
Qed.

Lemma iloc_last_ok dd : dd <> [] -> exists p, iloc_last dd = Ok p /\ In p dd.
Proof.
  destruct dd as [|p l]; [congruence|]. intros _. exists (last l p). split.
  - reflexivity.
  - destruct l as [|q l'] using rev_ind.
    + now left.
    + rewrite last_last. right. apply in_or_app. right. now left.
Qed.

(** ** One day *)

Lemma day_body_inv c row dd t :
  day_body c row dd = Ok t ->
  exists last_row,
    iloc_last dd = Ok last_row /\ day_spec c row dd (Close last_row) t.
Proof.
  unfold day_body. destruct (iloc_last dd) as [last_row|e] eqn:El; [|discriminate].
  cbn [bind]. intro H. exists last_row. split; [reflexivity|].
  destruct (breaks_up (High row) dd) eqn:Eu.
  - apply breaks_up_true in Eu.
    destruct (py_div c (High row)) as [q|e] eqn:Ed; [|discriminate].
    apply py_div_ok in Ed as [Hnz ->]. cbn [bind] in H. injection H as <-.
    now apply day_up.
  - apply breaks_up_false in Eu.
    destruct (breaks_down (Low row) dd) eqn:Edn.
    + apply breaks_down_true in Edn.
      destruct (py_div c (Low row)) as [q|e] eqn:Ed; [|discriminate].
      apply py_div_ok in Ed as [Hnz ->]. cbn [bind] in H. injection H as <-.
      now apply day_down.
    + apply breaks_down_false in Edn. injection H as <-.
      now apply day_neutral.
Qed.

(** A day raises only on an empty frame or a zero entry price. *)
Lemma day_body_total c row dd :
  dd <> [] -> ~ High row == 0 -> ~ Low row == 0 ->
  exists t, day_body c row dd = Ok t.
Proof.
  intros Hdd Hh Hl. destruct (iloc_last_ok dd Hdd) as [p [Hp _]].
  unfold day_body. rewrite Hp. cbn [bind].
  destruct (breaks_up (High row) dd).
  - rewrite (py_div_nonzero _ _ Hh). cbn [bind]. eauto.
  - destruct (breaks_down (Low row) dd).
    + rewrite (py_div_nonzero _ _ Hl). cbn [bind]. eauto.
    + eauto.
Qed.

Lemma day_body_capital c row dd t :
  day_body c row dd = Ok t -> Capital t = c + PnL t.
Proof.
  intro H. apply day_body_inv in H as [lr [_ Hs]].
  destruct Hs as [_ _ ->|_ _ _ ->|_ _ ->]; reflexivity.
Qed.

(** ** The sample sessions, run *)

(** Two compounding days: 1000 shares bought at 100 and closed at 110, then
    2444 shares sold at 45 and closed at 42. *)
Example two_follow_days_run :
  backtest two_follow_days 100000 =
  Ok ([mkTrade 1 UpsideFollow (Some 100) 110 1000 10000 110000;
       mkTrade 2 DownsideFollow (Some 45) 42 2444 7332 117332],
      117332).
Proof. vm_compute. reflexivity. Qed.

(** The master row of these two days, its amounts in hundredths. *)
Example two_follow_days_row :
  process_symbol sample_download 100000 "A" =
  Ok (Some (mkMasterRow "A" 2 1 1 0 0
              (10000 # 100) (11733200 # 100) (1733200 # 100) (1733200 # 100))).
Proof. vm_compute. reflexivity. Qed.

Example quiet_day_run :
  backtest quiet_day 100000 =
  Ok ([mkTrade 1 Neutral None 19 0 0 100000], 100000).
Proof. vm_compute. reflexivity. Qed.

(** ** Classification of one day *)

(** C2.  A day that has produced a trade has classified it by the first
    matching rule: a bar above the first high gives entry at the first high,
    Upside Follow when the last close is above it and Upside Fake otherwise,
    with PnL [(last_close - entry) * quantity]; else a bar below the first
    low gives entry at the first low, Downside Follow when the last close is
    below it and Downside Fake otherwise, with PnL
    [(entry - last_close) * quantity]; else Neutral with no entry. *)
Theorem day_classification c row dd t :
  day_body c row dd = Ok t ->
  exists last_row,
    iloc_last dd = Ok last_row /\
    (UpBreak (High row) dd ->
       Entry t = Some (High row) /\
       (High row < Close last_row -> tTrend t = UpsideFollow) /\
       (~ High row < Close last_row -> tTrend t = UpsideFake) /\
       PnL t = (Close last_row - High row) * inject_Z (Quantity t)) /\
    (~ UpBreak (High row) dd -> DownBreak (Low row) dd ->
       Entry t = Some (Low row) /\
       (Close last_row < Low row -> tTrend t = DownsideFollow) /\
       (~ Close last_row < Low row -> tTrend t = DownsideFake) /\
       PnL t = (Low row - Close last_row) * inject_Z (Quantity t)) /\
    (~ UpBreak (High row) dd -> ~ DownBreak (Low row) dd ->
       tTrend t = Neutral /\ Entry t = None).
Proof.
  intro H. apply day_body_inv in H as [lr [Hl Hs]]. exists lr.
  split; [exact Hl|].
  destruct Hs as [Hu Hnz ->|Hnu Hd Hnz ->|Hnu Hnd ->]; cbn.
  - repeat split; try contradiction.
    + intro Hlt. apply Qgtb_true in Hlt. now rewrite Hlt.
    + intro Hlt. apply Qgtb_false in Hlt. now rewrite Hlt.
  - repeat split; try contradiction.
    + intro Hlt. apply Qltb_true in Hlt. now rewrite Hlt.
    + intro Hlt. apply Qltb_false in Hlt. now rewrite Hlt.
  - repeat split; try contradiction.
Qed.

Lemma day_classification_witness :
  exists t,
    day_body 100000 (bar 1 0 100 95 98) both_sides_day = Ok t /\
    exists last_row,
      iloc_last both_sides_day = Ok last_row /\
      (UpBreak 100 both_sides_day ->
         Entry t = Some 100 /\
         (100 < Close last_row -> tTrend t = UpsideFollow) /\
         (~ 100 < Close last_row -> tTrend t = UpsideFake) /\
         PnL t = (Close last_row - 100) * inject_Z (Quantity t)) /\
      (~ UpBreak 100 both_sides_day -> DownBreak 95 both_sides_day ->
         Entry t = Some 95 /\
         (Close last_row < 95 -> tTrend t = DownsideFollow) /\
         (~ Close last_row < 95 -> tTrend t = DownsideFake) /\
         PnL t = (95 - Close last_row) * inject_Z (Quantity t)) /\
      (~ UpBreak 100 both_sides_day -> ~ DownBreak 95 both_sides_day ->
         tTrend t = Neutral /\ Entry t = None).
Proof.
  eexists. split.
  - vm_compute. reflexivity.
  - apply (day_classification 100000 (bar 1 0 100 95 98) both_sides_day).
    vm_compute. reflexivity.
Defined.

(** C3.  When the bars of a day break both the first high and the first low,
    the day is an upside day: with a non-zero first high it produces a trade
    that is Upside Follow or Upside Fake, and no trade it produces is a
    Downside one.  (With a zero first high the sizing division raises and
    the day produces no trade.) *)
Theorem upside_checked_first c row dd :
  UpBreak (High row) dd -> DownBreak (Low row) dd ->
  (~ High row == 0 ->
     exists t, day_body c row dd = Ok t /\
               (tTrend t = UpsideFollow \/ tTrend t = UpsideFake)) /\
  (forall t, day_body c row dd = Ok t ->
     tTrend t <> DownsideFollow /\ tTrend t <> DownsideFake) /\
  (High row == 0 -> day_body c row dd = Raise ZeroDivisionError).
Proof.
  intros Hu Hd.
  assert (Hdd : dd <> []) by (intros ->; inversion Hu).
  destruct (iloc_last_ok dd Hdd) as [lr [Hl _]].
  assert (Hup : forall t, day_body c row dd = Ok t ->
                tTrend t = UpsideFollow \/ tTrend t = UpsideFake).
  { intros t H. apply day_body_inv in H as [lr' [_ Hs]].
    destruct Hs as [_ _ ->|Hnu _ _ _|Hnu _ _]; try contradiction.
    cbn. destruct (Qgtb _ _); auto. }
  split; [|split].
  - intro Hnz. unfold day_body in *. rewrite Hl in *. cbn [bind] in *.
    apply breaks_up_true in Hu. rewrite Hu in *.
    rewrite (py_div_nonzero _ _ Hnz) in *. cbn [bind] in *.
    eexists. split; [reflexivity|]. apply Hup. reflexivity.
  - intros t H. destruct (Hup t H) as [-> | ->]; split; discriminate.
  - intro Hz. unfold day_body. rewrite Hl. cbn [bind].
    apply breaks_up_true in Hu. rewrite Hu.
    now rewrite (py_div_zero _ _ Hz).
Qed.

Lemma upside_checked_first_witness :
  (~ 100 == 0 ->
     exists t, day_body 100000 (bar 1 0 100 95 98) both_sides_day = Ok t /\
               (tTrend t = UpsideFollow \/ tTrend t = UpsideFake)) /\
  (forall t, day_body 100000 (bar 1 0 100 95 98) both_sides_day = Ok t ->
     tTrend t <> DownsideFollow /\ tTrend t <> DownsideFake) /\
  (100 == 0 ->
     day_body 100000 (bar 1 0 100 95 98) both_sides_day
     = Raise ZeroDivisionError).
Proof.
  apply (upside_checked_first 100000 (bar 1 0 100 95 98) both_sides_day).
  - apply Exists_cons_tl, Exists_cons_hd. reflexivity.
  - apply Exists_cons_tl, Exists_cons_hd. reflexivity.
Defined.

(** C5.  A day that has produced a trade has given it one of the five
    trends; the entry is present exactly when the trend is not Neutral; and
    on a Neutral day quantity and PnL are zero and the capital is what it was
    before the day. *)
Theorem neutral_iff_no_entry c row dd t :
  day_body c row dd = Ok t ->
  (tTrend t = UpsideFollow \/ tTrend t = UpsideFake \/
   tTrend t = DownsideFollow \/ tTrend t = DownsideFake \/
   tTrend t = Neutral) /\
  (Entry t <> None <-> tTrend t <> Neutral) /\
  (tTrend t = Neutral ->
     Quantity t = 0%Z /\ PnL t = 0 /\ Capital t == c).
Proof.
  intro H. apply day_body_inv in H as [lr [_ Hs]].
  destruct Hs as [_ _ ->|_ _ _ ->|_ _ ->]; cbn.
  - destruct (Qgtb _ _); (split; [tauto|]); (split; [split; discriminate|]);
      discriminate.
  - destruct (Qltb _ _); (split; [tauto|]); (split; [split; discriminate|]);
      discriminate.
  - split; [tauto|]. split; [tauto|]. intros _.
    repeat split. apply Qplus_0_r.
Qed.

Lemma neutral_iff_no_entry_witness :
  exists t,
    day_body 100000 (bar 1 0 20 18 19) quiet_day = Ok t /\
    (tTrend t = UpsideFollow \/ tTrend t = UpsideFake \/
     tTrend t = DownsideFollow \/ tTrend t = DownsideFake \/
     tTrend t = Neutral) /\
    (Entry t <> None <-> tTrend t <> Neutral) /\
    (tTrend t = Neutral ->
       Quantity t = 0%Z /\ PnL t = 0 /\ Capital t == 100000).
Proof.
  eexists. split.
  - vm_compute. reflexivity.
  - apply (neutral_iff_no_entry 100000 (bar 1 0 20 18 19) quiet_day).
    vm_compute. reflexivity.
Defined.

(** ** The fold, day by day *)

Lemma day_loop_trace data rows : forall c acc res fin,
  day_loop data rows c acc = Ok (res, fin) ->
  exists ts, res = acc ++ ts /\ fold_trace data c rows ts fin.
Proof.
  induction rows as [|row rows IH]; intros c acc res fin H; cbn in H.
  - injection H as <- <-. exists []. split; [now rewrite app_nil_r|constructor].
  - destruct (day_body c row (day_data_of data (Date row))) as [t|e] eqn:Ed;
      [|discriminate].
    cbn [bind] in H. apply IH in H as [ts [-> Ht]].
    exists (t :: ts). split; [now rewrite <- app_assoc|].
    now apply trace_cons.
Qed.

Lemma trace_day_loop data c rows ts fin :
  fold_trace data c rows ts fin ->
  forall acc, day_loop data rows c acc = Ok (acc ++ ts, fin).
Proof.
  induction 1 as [c|c row rows t ts fin Hd _ IH]; intro acc; cbn.
  - now rewrite app_nil_r.
  - rewrite Hd. cbn [bind]. rewrite IH. now rewrite <- app_assoc.
Qed.

Lemma backtest_trace data init results fin :
  backtest data init = Ok (results, fin) <->
  fold_trace data init (first_candles data) results fin.
Proof.
  unfold backtest. split; intro H.
  - apply day_loop_trace in H as [ts [-> Ht]]. exact Ht.
  - exact (trace_day_loop _ _ _ _ _ H []).
Qed.

Lemma trace_length data c rows ts fin :
  fold_trace data c rows ts fin -> List.length ts = List.length rows.
Proof. induction 1; cbn; congruence. Qed.

Lemma capital_before_shift c t ts j :
  (j <= List.length ts)%nat ->
  capital_before c (t :: ts) (S j) = capital_before (Capital t) ts j.
Proof.
  intro Hj. unfold capital_before.
  change (nth (S j) (c :: map Capital (t :: ts)) c)
    with (nth j (map Capital (t :: ts)) c).
  apply nth_indep. cbn [List.length map]. rewrite length_map. lia.
Qed.

(** Every trade of a run is the outcome of the loop body on its day, run
    with the capital the day starts from. *)
Lemma trace_nth data c rows ts fin :
  fold_trace data c rows ts fin ->
  forall i t, nth_error ts i = Some t ->
  exists row,
    nth_error rows i = Some row /\
    day_body (capital_before c ts i) row (day_data_of data (Date row)) = Ok t.
Proof.
  induction 1 as [c|c row rows t ts fin Hd _ IH]; intros i u Hi.
  - destruct i; discriminate.
  - destruct i as [|j]; cbn in Hi.
    + injection Hi as <-. exists row. split; [reflexivity|exact Hd].
    + destruct (IH j u Hi) as [row' [Hr Hb]]. exists row'.
      split; [exact Hr|]. rewrite capital_before_shift; [exact Hb|].
      apply Nat.lt_le_incl. apply nth_error_Some. congruence.
Qed.

Lemma last_cons_default {A : Type} (l : list A) : forall x d,
  last (x :: l) d = last l x.
Proof.
  induction l as [|y l IH]; intros x d; [reflexivity|].
  change (last (x :: y :: l) d) with (last (y :: l) d).
  now rewrite (IH y d), (IH y x).
Qed.

Lemma trace_final data c rows ts fin :
  fold_trace data c rows ts fin -> fin = last (map Capital ts) c.
Proof.
  induction 1 as [c|c row rows t ts fin _ _ IH]; [reflexivity|].
  cbn [map]. now rewrite last_cons_default.
Qed.

(** ** The run does not raise on non-zero prices *)

Lemma insert_first_In x p l : In x (insert_first p l) -> x = p \/ In x l.
Proof.
  induction l as [|q l IH]; cbn.
  - intros [<-|[]]. now left.
  - destruct (Date p <? Date q)%Z.
    + intros [<-|H]; auto.
    + destruct (Date p =? Date q)%Z; [auto|].
      intros [<-|H]; [right; now left|].
      destruct (IH H); auto.
Qed.

Lemma insert_first_nonempty p l : insert_first p l <> [].
Proof.
  destruct l as [|q l]; cbn; [discriminate|].
  destruct (Date p <? Date q)%Z; [discriminate|].
  destruct (Date p =? Date q)%Z; discriminate.
Qed.

Lemma groups_In x data : forall acc,
  In x (fold_left (fun acc p => insert_first p acc) data acc) ->
  In x acc \/ In x data.
Proof.
  induction data as [|p data IH]; intros acc H; cbn in *; [auto|].
  destruct (IH _ H) as [Hi|Hi]; [|auto].
  destruct (insert_first_In _ _ _ Hi) as [->|Hacc]; auto.
Qed.

Lemma first_candles_In row data : In row (first_candles data) -> In row data.
Proof.
  intro H. destruct (groups_In _ _ _ H) as [[]|Hd]. exact Hd.
Qed.

Lemma groups_nonempty data : forall acc,
  acc <> [] -> fold_left (fun acc p => insert_first p acc) data acc <> [].
Proof.
  induction data as [|p data IH]; intros acc H; cbn; [exact H|].
  apply IH, insert_first_nonempty.
Qed.

Lemma first_candles_nonempty data : data <> [] -> first_candles data <> [].
Proof.
  destruct data as [|p data]; [congruence|]. intros _.
  unfold first_candles. cbn. apply groups_nonempty. discriminate.
Qed.

Lemma day_data_nonempty row data :
  In row data -> day_data_of data (Date row) <> [].
Proof.
  intros Hin Hnil.
  assert (H : In row (day_data_of data (Date row))).
  { apply filter_In. split; [exact Hin|apply Z.eqb_refl]. }
  rewrite Hnil in H. exact H.
Qed.

Lemma trace_total data rows :
  (forall row, In row rows ->
     In row data /\ ~ High row == 0 /\ ~ Low row == 0) ->
  forall c, exists ts fin, fold_trace data c rows ts fin.
Proof.
  induction rows as [|row rows IH]; intros Hrows c.
  - exists [], c. constructor.
  - destruct (Hrows row (or_introl eq_refl)) as [Hin [Hh Hl]].
    destruct (day_body_total c row _ (day_data_nonempty _ _ Hin) Hh Hl)
      as [t Ht].
    destruct (IH (fun r Hr => Hrows r (or_intror Hr)) (Capital t))
      as [ts [fin Hts]].
    exists (t :: ts), fin. now apply trace_cons with (1 := Ht).
Qed.

(** The backtest produces a trade list, one trade per date, whenever no high
    and no low of the series is zero. *)
Lemma backtest_total data init :
  (forall p, In p data -> ~ High p == 0 /\ ~ Low p == 0) ->
  exists results fin,
    backtest data init = Ok (results, fin) /\
    List.length results = List.length (first_candles data).
Proof.
  intro Hnz.
  destruct (trace_total data (first_candles data)) with (c := init)
    as [ts [fin Ht]].
  { intros row Hr. apply first_candles_In in Hr. split; [exact Hr|auto]. }
  exists ts, fin. split; [now apply backtest_trace|].
  exact (trace_length _ _ _ _ _ Ht).
Qed.

(** ** Truncation and floor *)

Lemma py_int_floor q : 0 <= q -> py_int q = Qfloor q.
Proof.
  destruct q as [n d]. unfold Qle, py_int, Qfloor. cbn. intro H.
  apply Z.quot_div_nonneg; lia.
Qed.

Lemma Qfloor_nonneg q : 0 <= q -> (0 <= Qfloor q)%Z.
Proof.
  destruct q as [n d]. unfold Qle, Qfloor. cbn. intro H.
  apply Z.div_pos; lia.
Qed.

Lemma Qdiv_nonneg a b : 0 <= a -> 0 < b -> 0 <= a / b.
Proof.
  intros Ha Hb. apply Qle_shift_div_l; [exact Hb|].
  now rewrite Qmult_0_l.
Qed.

(** ** The capital chain *)

(** C1.  In the trade list of a backtest, the capital after each day is the
    capital after the day before plus the PnL of the day, the capital before
    the first day being the initial capital. *)
Theorem capital_chain data init results fin :
  backtest data init = Ok (results, fin) ->
  capital_before init results 0 = init /\
  forall i t, nth_error results i = Some t ->
    capital_before init results (S i) = Capital t /\
    Capital t = capital_before init results i + PnL t.
Proof.
  intro H. apply backtest_trace in H. split; [reflexivity|].
  intros i t Hi. split.
  - unfold capital_before.
    change (nth (S i) (init :: map Capital results) init)
      with (nth i (map Capital results) init).
    apply nth_error_nth. now rewrite nth_error_map, Hi.
  - destruct (trace_nth _ _ _ _ _ H i t Hi) as [row [_ Hb]].
    exact (day_body_capital _ _ _ _ Hb).
Qed.

Lemma capital_chain_witness :
  exists results fin,
    backtest two_follow_days 100000 = Ok (results, fin) /\
    capital_before 100000 results 0 = 100000 /\
    forall i t, nth_error results i = Some t ->
      capital_before 100000 results (S i) = Capital t /\
      Capital t = capital_before 100000 results i + PnL t.
Proof.
  eexists. eexists. split.
  - vm_compute. reflexivity.
  - apply (capital_chain two_follow_days 100000 _ (117332 # 1)).
    vm_compute. reflexivity.
Defined.

(** C7.  The final capital of a backtest is the [Capital] of its last trade,
    or the initial capital when it has no trade; a summary made of it
    carries that final capital, and as profit the final capital minus the
    initial one. *)
Theorem final_capital_is_last data init results fin :
  backtest data init = Ok (results, fin) ->
  fin = last (map Capital results) init /\
  forall s, summarize results fin init = Ok s ->
    final_capital s = last (map Capital results) init /\
    total_profit s = final_capital s - init.
Proof.
  intro H. apply backtest_trace in H. apply trace_final in H.
  split; [exact H|]. intros s Hs. unfold summarize in Hs.
  destruct (value_counts results) as [cnt|e]; [|discriminate].
  cbn [bind] in Hs. injection Hs as <-. cbn. now rewrite <- H.
Qed.

Lemma final_capital_is_last_witness :
  exists results fin,
    backtest two_follow_days 100000 = Ok (results, fin) /\
    fin = last (map Capital results) 100000 /\
    forall s, summarize results fin 100000 = Ok s ->
      final_capital s = last (map Capital results) 100000 /\
      total_profit s = final_capital s - 100000.
Proof.
  eexists. eexists. split.
  - vm_compute. reflexivity.
  - apply (final_capital_is_last two_follow_days 100000).
    vm_compute. reflexivity.
Defined.

(** ** Position sizing *)

(** On the second day of [ruin_days] the capital is -300000 and the entry 7:
    the quantity is -42857, the floor of the quotient is -42858. *)
Example ruin_second_day :
  exists results fin u,
    backtest ruin_days 100000 = Ok (results, fin) /\
    nth_error results 1 = Some u /\
    capital_before 100000 results 1 == -300000 /\
    Entry u = Some 7 /\
    Quantity u = (-42857)%Z /\
    Qfloor (capital_before 100000 results 1 / 7) = (-42858)%Z.
Proof.
  do 3 eexists. split; [vm_compute; reflexivity|].
  repeat split; reflexivity.
Qed.

(** C4 fails once the capital is negative: the quantity of the second day
    of [ruin_days] is negative. *)
Lemma quantity_is_floor_fails : ~ quantity_is_floor.
Proof.
  intro H.
  assert (E : exists results fin,
             backtest ruin_days 100000 = Ok (results, fin) /\
             exists t, nth_error results 1 = Some t /\ (Quantity t < 0)%Z).
  { eexists. eexists. split; [vm_compute; reflexivity|].
    eexists. split; [reflexivity|]. reflexivity. }
  destruct E as [results [fin [Hb [t [Ht Hq]]]]].
  destruct (H _ _ _ _ Hb _ _ Ht) as [_ [_ Hpos]]. lia.
Qed.

(** C4, amended.  In the trade list of a backtest, the quantity of a day
    with an entry is the quotient of the capital before the day by the
    entry, truncated toward zero, and the quantity of a day without entry is
    zero.  When the capital before the day is not negative and the entry is
    positive, that quantity is the floor of the quotient and is not
    negative. *)
Theorem quantity_truncates data init results fin :
  backtest data init = Ok (results, fin) ->
  forall i t, nth_error results i = Some t ->
    (forall e, Entry t = Some e ->
       Quantity t = py_int (capital_before init results i / e) /\
       (0 <= capital_before init results i -> 0 < e ->
          Quantity t = Qfloor (capital_before init results i / e) /\
          (0 <= Quantity t)%Z)) /\
    (Entry t = None -> Quantity t = 0%Z).
Proof.
  intros H i t Hi. apply backtest_trace in H.
  destruct (trace_nth _ _ _ _ _ H i t Hi) as [row [_ Hb]].
  set (cb := capital_before init results i) in *.
  assert (Hq : forall e, Entry t = Some e -> Quantity t = py_int (cb / e)).
  { apply day_body_inv in Hb as [lr [_ Hs]].
    destruct Hs as [_ _ ->|_ _ _ ->|_ _ ->]; cbn; intros e He;
      try discriminate; now injection He as <-. }
  split.
  - intros e He. split; [now apply Hq|]. intros Hc Hpos.
    rewrite (Hq e He).
    pose proof (Qdiv_nonneg _ _ Hc Hpos) as Hd.
    rewrite (py_int_floor _ Hd). split; [reflexivity|].
    now apply Qfloor_nonneg.
  - apply day_body_inv in Hb as [lr [_ Hs]].
    destruct Hs as [_ _ ->|_ _ _ ->|_ _ ->]; cbn; intro He;
      try discriminate; reflexivity.
Qed.

Lemma quantity_truncates_witness :
  exists results fin,
    backtest ruin_days 100000 = Ok (results, fin) /\
    forall i t, nth_error results i = Some t ->
      (forall e, Entry t = Some e ->
         Quantity t = py_int (capital_before 100000 results i / e) /\
         (0 <= capital_before 100000 results i -> 0 < e ->
            Quantity t = Qfloor (capital_before 100000 results i / e) /\
            (0 <= Quantity t)%Z)) /\
      (Entry t = None -> Quantity t = 0%Z).
Proof.
  eexists. eexists. split.
  - vm_compute. reflexivity.
  - apply (quantity_truncates ruin_days 100000 _ (-342857 # 1)).
    vm_compute. reflexivity.
Defined.

(** ** Negative capital *)

(** C10.  The capital is not floored at zero.  On [ruin_days] with 100000
    to start, the first day is a downside breakout closing above its entry;
    its loss [(exit - entry) * quantity] exceeds the capital, the capital
    after it is negative, and the second day is sized from that negative
    capital and adds its own PnL to it. *)
Theorem capital_not_floored :
  exists data init results fin t u e e',
    0 < init /\
    backtest data init = Ok (results, fin) /\
    nth_error results 0 = Some t /\
    nth_error results 1 = Some u /\
    tTrend t = DownsideFake /\
    Entry t = Some e /\
    init < (Exit t - e) * inject_Z (Quantity t) /\
    Capital t < 0 /\
    capital_before init results 1 = Capital t /\
    Entry u = Some e' /\
    Quantity u = py_int (Capital t / e') /\
    Capital u = Capital t + PnL u.
Proof.
  exists ruin_days, 100000.
  do 6 eexists. split; [reflexivity|].
  split; [vm_compute; reflexivity|].
  split; [reflexivity|]. split; [reflexivity|].
  split; [reflexivity|]. split; [reflexivity|].
  split; [reflexivity|]. split; [reflexivity|].
  split; [reflexivity|]. split; [reflexivity|].
  split; reflexivity.
Qed.

(** ** The summary *)

Lemma count_trends (l : list Trend) :
  List.length l =
  (count_occ Trend_eq_dec l UpsideFollow + count_occ Trend_eq_dec l UpsideFake
   + count_occ Trend_eq_dec l DownsideFollow
   + count_occ Trend_eq_dec l DownsideFake
   + count_occ Trend_eq_dec l Neutral)%nat.
Proof.
  induction l as [|a l IH]; [reflexivity|].
  destruct a; cbn [count_occ List.length];
    repeat match goal with
           | |- context [Trend_eq_dec ?x ?y] =>
               destruct (Trend_eq_dec x y); try congruence
           end; lia.
Qed.

Lemma summarize_inv results c init s :
  summarize results c init = Ok s ->
  results <> [] /\
  s = mkSummary (List.length results)
        (count_trend UpsideFollow results) (count_trend DownsideFollow results)
        (count_trend UpsideFake results) (count_trend DownsideFake results)
        (win_rate_of (count_trend UpsideFollow results
                      + count_trend DownsideFollow results)
           (List.length results))
        c (c - init).
Proof.
  unfold summarize. destruct results as [|t ts]; [discriminate|].
  cbn [value_counts bind]. intro H. injection H as <-.
  split; [discriminate|reflexivity].
Qed.

Lemma summarize_nonempty results c init :
  results <> [] -> exists s, summarize results c init = Ok s.
Proof.
  destruct results as [|t ts]; [congruence|]. intros _.
  unfold summarize. cbn [value_counts bind]. eauto.
Qed.

Lemma inject_nat_nonzero n : (0 < n)%nat -> ~ inject_Z (Z.of_nat n) == 0.
Proof.
  intros Hn H. unfold Qeq in H. cbn in H. lia.
Qed.

Lemma win_rate_of_pos f n :
  (0 < n)%nat ->
  win_rate_of f n == 100 * inject_Z (Z.of_nat f) / inject_Z (Z.of_nat n).
Proof.
  intro Hn. unfold win_rate_of.
  destruct (0 <? n)%nat eqn:E; [|apply Nat.ltb_ge in E; lia].
  field. now apply inject_nat_nonzero.
Qed.


(** The access to the ["Trend"] column raises on an empty trade list, before
    line 128 is reached.  The script never has one there: the frame of a
    summarised symbol has rows, so its trade list has trades. *)
Lemma summarize_no_trades c init : summarize [] c init = Raise KeyError.
Proof. reflexivity. Qed.

(** On a trade list that is not empty the summary returns the win rate
    [100 * (Upside Follow + Downside Follow) / total]. *)
Lemma summarize_win_rate results c init :
  results <> [] ->
  exists s,
    summarize results c init = Ok s /\
    win_rate s ==
      100 * inject_Z (Z.of_nat (count_trend UpsideFollow results
                                + count_trend DownsideFollow results))
      / inject_Z (Z.of_nat (List.length results)).
Proof.
  intro Hne. destruct (summarize_nonempty results c init Hne) as [s Hs].
  exists s. split; [exact Hs|].
  apply summarize_inv in Hs as [_ ->]. cbn [win_rate].
  apply win_rate_of_pos. destruct results; [congruence|cbn; lia].
Qed.


(** C9 fails on [follow_then_quiet]: one Upside Follow day and one Neutral
    day give a win rate of 50, not 100. *)
Lemma win_rate_over_decided_fails : ~ win_rate_over_decided.
Proof.
  intro H.
  assert (E : exists results fin s,
             backtest follow_then_quiet 100000 = Ok (results, fin) /\
             summarize results fin 100000 = Ok s /\
             win_rate s == 50 /\
             count_trend UpsideFollow results = 1%nat /\
             count_trend DownsideFollow results = 0%nat /\
             decided results = 1%nat).
  { do 3 eexists. split; [vm_compute; reflexivity|].
    split; [vm_compute; reflexivity|]. repeat split; reflexivity. }
  destruct E as [results [fin [s [Hb [Hs [Hw [Hu [Hd Hdec]]]]]]]].
  pose proof (H _ _ _ _ _ Hb Hs) as Hc.
  rewrite Hu, Hd, Hdec, Hw in Hc. discriminate Hc.
Qed.

(** C9, amended.  The win rate of a summary is the percentage of the days
    classified as Follow, in either direction, out of all the days of the
    trade list, the Neutral ones included. *)
Theorem win_rate_over_all_days results c init s :
  summarize results c init = Ok s ->
  total_trades s =
    (count_trend UpsideFollow results + count_trend UpsideFake results
     + count_trend DownsideFollow results + count_trend DownsideFake results
     + count_trend Neutral results)%nat /\
  win_rate s ==
    100 * inject_Z (Z.of_nat (count_trend UpsideFollow results
                              + count_trend DownsideFollow results))
    / inject_Z (Z.of_nat (total_trades s)).
Proof.
  intro Hs. apply summarize_inv in Hs as [Hne ->]. cbn [total_trades win_rate].
  split.
  - unfold count_trend. rewrite <- count_trends. now rewrite length_map.
  - apply win_rate_of_pos. destruct results; [congruence|cbn; lia].
Qed.

Lemma win_rate_over_all_days_witness :
  exists results fin s,
    backtest follow_then_quiet 100000 = Ok (results, fin) /\
    summarize results fin 100000 = Ok s /\
    count_trend Neutral results = 1%nat /\
    total_trades s =
      (count_trend UpsideFollow results + count_trend UpsideFake results
       + count_trend DownsideFollow results + count_trend DownsideFake results
       + count_trend Neutral results)%nat /\
    win_rate s ==
      100 * inject_Z (Z.of_nat (count_trend UpsideFollow results
                                + count_trend DownsideFollow results))
      / inject_Z (Z.of_nat (total_trades s)).
Proof.
  do 3 eexists. split; [vm_compute; reflexivity|].
  split; [vm_compute; reflexivity|]. split; [reflexivity|].
  apply (win_rate_over_all_days _ (110000 # 1) 100000).
  vm_compute. reflexivity.
Defined.

(** ** The run over the tickers *)

Section Run.

Variable yf_download : string -> result (list PricePoint).
Variable capital0 : Q.

Lemma ticker_loop_acc tickers : forall acc,
  ticker_loop yf_download capital0 tickers acc =
  acc ++ run yf_download capital0 tickers.
Proof.
  unfold run.
  induction tickers as [|s rest IH]; intro acc; cbn [ticker_loop].
  - now rewrite app_nil_r.
  - destruct (process_symbol yf_download capital0 s) as [[row|]|e].
    + rewrite (IH (acc ++ [row])), (IH ([] ++ [row])).
      now rewrite <- app_assoc.
    + apply IH.
    + apply IH.
Qed.

Lemma run_app before after :
  run yf_download capital0 (before ++ after) =
  run yf_download capital0 before ++ run yf_download capital0 after.
Proof.
  induction before as [|s rest IH]; [reflexivity|].
  unfold run in *. cbn [app ticker_loop].
  destruct (process_symbol yf_download capital0 s) as [[row|]|e]; auto.
  rewrite (ticker_loop_acc (rest ++ after)), (ticker_loop_acc rest).
  unfold run. rewrite IH. now rewrite <- app_assoc.
Qed.

(** A symbol with an empty frame takes the [continue]. *)
Lemma empty_frame_skipped s :
  yf_download s = Ok [] -> process_symbol yf_download capital0 s = Ok None.
Proof.
  intro H. unfold process_symbol. now rewrite H.
Qed.

(** A frame that has rows gives the summary at least one trade. *)
Lemma backtest_has_trades data results fin :
  data <> [] ->
  backtest data capital0 = Ok (results, fin) ->
  results <> [].
Proof.
  intros Hne Hb Hnil. subst results.
  apply backtest_trace, trace_length in Hb.
  apply first_candles_nonempty in Hne.
  destruct (first_candles data); [congruence|discriminate].
Qed.

End Run.

(** C8.  A symbol whose frame is empty, or whose processing raises, adds no
    row to the master results, and the run over a ticker list holding it
    gives the rows of the symbols before it followed by the rows of the
    symbols after it: the loop goes on with the remaining symbols. *)
Theorem failures_are_isolated yf_download capital0 before s after :
  yf_download s = Ok [] \/
  (exists e, process_symbol yf_download capital0 s = Raise e) ->
  run yf_download capital0 [s] = [] /\
  run yf_download capital0 (before ++ s :: after) =
    run yf_download capital0 before ++ run yf_download capital0 after.
Proof.
  intro H.
  assert (Hs : run yf_download capital0 [s] = []).
  { unfold run. cbn. destruct H as [H|[e H]].
    - now rewrite (empty_frame_skipped _ _ _ H).
    - now rewrite H. }
  split; [exact Hs|].
  change (s :: after) with ([s] ++ after).
  now rewrite !run_app, Hs.
Qed.

Lemma failures_are_isolated_witness :
  (run sample_download 100000 ["B"%string] = [] /\
   run sample_download 100000 (["A"%string] ++ "B"%string :: ["A"%string]) =
     run sample_download 100000 ["A"%string]
     ++ run sample_download 100000 ["A"%string]) /\
  (run sample_download 100000 ["C"%string] = [] /\
   run sample_download 100000 (["A"%string] ++ "C"%string :: ["A"%string]) =
     run sample_download 100000 ["A"%string]
     ++ run sample_download 100000 ["A"%string]).
Proof.
  split.
  - apply (failures_are_isolated sample_download 100000).
    left. reflexivity.
  - apply (failures_are_isolated sample_download 100000).
    right. exists ZeroDivisionError. vm_compute. reflexivity.
Defined.

(** * The daily sessions *)

Lemma insert_first_hd q p l :
  HdRel date_lt q l -> date_lt q p -> HdRel date_lt q (insert_first p l).
Proof.
  intros Hl Hp. destruct l as [|r l]; cbn.
  - now constructor.
  - apply HdRel_inv in Hl.
    destruct (Date p <? Date r)%Z; [now constructor|].
    destruct (Date p =? Date r)%Z; now constructor.
Qed.

Lemma insert_first_sorted p l :
  Sorted date_lt l -> Sorted date_lt (insert_first p l).
Proof.
  induction l as [|q l IH]; intro Hs; cbn.
  - repeat constructor.
  - destruct (Date p <? Date q)%Z eqn:Elt.
    + constructor; [exact Hs|]. constructor. now apply Z.ltb_lt.
    + destruct (Date p =? Date q)%Z eqn:Eeq; [exact Hs|].
      apply Sorted_inv in Hs as [Hs Hhd]. constructor; [now apply IH|].
      apply insert_first_hd; [exact Hhd|].
      apply Z.ltb_ge in Elt. apply Z.eqb_neq in Eeq. unfold date_lt. lia.
Qed.

Lemma groups_sorted data : forall acc,
  Sorted date_lt acc ->
  Sorted date_lt (fold_left (fun acc p => insert_first p acc) data acc).
Proof.
  induction data as [|p data IH]; intros acc Hs; cbn; [exact Hs|].
  apply IH, insert_first_sorted, Hs.
Qed.

Lemma date_lt_trans : Relations_1.Transitive date_lt.
Proof. intros a b c. unfold date_lt. lia. Qed.

Lemma first_candles_strongly_sorted data :
  StronglySorted date_lt (first_candles data).
Proof.
  apply Sorted_StronglySorted; [exact date_lt_trans|].
  apply groups_sorted. constructor.
Qed.

(** X1.  The first candles come in strictly ascending date order: every row
    has a date below the date of every row after it, so no date has two
    rows. *)
Theorem first_candles_ascending data :
  StronglySorted date_lt (first_candles data) /\
  NoDup (map Date (first_candles data)).
Proof.
  split; [apply first_candles_strongly_sorted|].
  pose proof (first_candles_strongly_sorted data) as H.
  induction H as [|a l Hs IH Hall]; cbn; constructor; [|exact IH].
  intro Hin. apply in_map_iff in Hin as [b [Hb Hin]].
  rewrite Forall_forall in Hall. specialize (Hall b Hin).
  unfold date_lt in Hall. lia.
Qed.

Lemma first_of_date_absent d l :
  (forall x, In x l -> Date x <> d) -> first_of_date d l = None.
Proof.
  induction l as [|q l IH]; intro H; cbn; [reflexivity|].
  destruct (Date q =? d)%Z eqn:E.
  - apply Z.eqb_eq in E. exfalso. exact (H q (or_introl eq_refl) E).
  - apply IH. intros x Hx. apply H. now right.
Qed.

Lemma first_of_date_insert d p l :
  StronglySorted date_lt l ->
  first_of_date d (insert_first p l) =
  match first_of_date d l with
  | Some r => Some r
  | None => if (Date p =? d)%Z then Some p else None
  end.
Proof.
  pose proof (first_of_date_absent d) as Habs.
  unfold first_of_date in *.
  induction l as [|q l IH]; intro Hs; cbn.
  - reflexivity.
  - apply StronglySorted_inv in Hs as [Hs Hall].
    rewrite Forall_forall in Hall.
    destruct (Date p <? Date q)%Z eqn:Elt.
    + apply Z.ltb_lt in Elt. cbn.
      destruct (Date p =? d)%Z eqn:Ep.
      * apply Z.eqb_eq in Ep.
        destruct (Date q =? d)%Z eqn:Eq; [apply Z.eqb_eq in Eq; lia|].
        rewrite (Habs l); [reflexivity|].
        intros x Hx. specialize (Hall x Hx). unfold date_lt in Hall. lia.
      * destruct (Date q =? d)%Z; [reflexivity|].
        now destruct (find (fun x => (Date x =? d)%Z) l).
    + destruct (Date p =? Date q)%Z eqn:Eeq.
      * apply Z.eqb_eq in Eeq. cbn.
        destruct (Date q =? d)%Z eqn:Eq; [reflexivity|].
        destruct (find (fun x => (Date x =? d)%Z) l); [reflexivity|].
        now rewrite Eeq, Eq.
      * cbn. destruct (Date q =? d)%Z; [reflexivity|]. now apply IH.
Qed.

Lemma first_of_date_cons d p l :
  first_of_date d (p :: l) =
  if (Date p =? d)%Z then Some p else first_of_date d l.
Proof. reflexivity. Qed.

Lemma first_of_date_groups d data : forall acc,
  StronglySorted date_lt acc ->
  first_of_date d (fold_left (fun acc p => insert_first p acc) data acc) =
  match first_of_date d acc with
  | Some r => Some r
  | None => first_of_date d data
  end.
Proof.
  induction data as [|p data IH]; intros acc Hs.
  - cbn [fold_left]. now destruct (first_of_date d acc).
  - cbn [fold_left]. rewrite IH.
    + rewrite (first_of_date_insert d p acc Hs), first_of_date_cons.
      destruct (first_of_date d acc); [reflexivity|].
      now destruct (Date p =? d)%Z.
    + apply Sorted_StronglySorted; [exact date_lt_trans|].
      apply insert_first_sorted, StronglySorted_Sorted, Hs.
Qed.

Lemma first_of_date_unique d row l :
  StronglySorted date_lt l ->
  (In row l /\ Date row = d <-> first_of_date d l = Some row).
Proof.
  unfold first_of_date. intro Hs. split.
  - intros [Hin Hd]. induction Hs as [|q l Hs IH Hall]; [destruct Hin|].
    cbn [find]. destruct Hin as [->|Hin].
    + apply Z.eqb_eq in Hd. now rewrite Hd.
    + rewrite Forall_forall in Hall. specialize (Hall row Hin).
      unfold date_lt in Hall.
      destruct (Date q =? d)%Z eqn:E; [apply Z.eqb_eq in E; lia|].
      now apply IH.
  - intro H. apply find_some in H as [Hin Hd]. split; [exact Hin|].
    now apply Z.eqb_eq.
Qed.

Lemma first_candles_lookup data d row :
  In row (first_candles data) /\ Date row = d <->
  first_of_date d data = Some row.
Proof.
  rewrite (first_of_date_unique d row _ (first_candles_strongly_sorted data)).
  unfold first_candles. rewrite first_of_date_groups; [|constructor].
  reflexivity.
Qed.

(** X2.  The first candle of a date is the first row of the frame with that
    date: a row is among the first candles, with date [d], exactly when it
    is the first row with date [d] of the frame. *)
Theorem first_candles_first_row data d row :
  In row (first_candles data) /\ Date row = d <->
  first_of_date d data = Some row.
Proof. apply first_candles_lookup. Qed.

(** X3.  Every date of the frame has its first candle, and that candle is a
    row of the day frame the loop cuts out for it. *)
Theorem every_date_has_candle data p :
  In p data ->
  exists row, In row (first_candles data) /\ Date row = Date p /\
              In row (day_data_of data (Date p)).
Proof.
  intro Hin.
  destruct (first_of_date (Date p) data) as [row|] eqn:E.
  - exists row. pose proof E as E'.
    apply first_candles_lookup in E as [Hr Hd].
    split; [exact Hr|]. split; [exact Hd|].
    apply find_some in E' as [Hin' Hd']. apply filter_In. now split.
  - exfalso. pose proof (find_none _ _ E p Hin) as H. cbn in H.
    now rewrite Z.eqb_refl in H.
Qed.

Lemma every_date_has_candle_witness :
  exists row, In row (first_candles two_follow_days) /\
              Date row = Date (bar 2 1 48 40 42) /\
              In row (day_data_of two_follow_days (Date (bar 2 1 48 40 42))).
Proof.
  apply (every_date_has_candle two_follow_days (bar 2 1 48 40 42)).
  cbn. auto.
Defined.

(** * One trade per date *)

Lemma day_body_date c row dd t :
  day_body c row dd = Ok t -> tDate t = Date row.
Proof.
  intro H. apply day_body_inv in H as [lr [_ Hs]].
  destruct Hs as [_ _ ->|_ _ _ ->|_ _ ->]; reflexivity.
Qed.

Lemma trace_dates data c rows ts fin :
  fold_trace data c rows ts fin -> map tDate ts = map Date rows.
Proof.
  induction 1 as [c|c row rows t ts fin Hd _ IH]; [reflexivity|].
  cbn. now rewrite IH, (day_body_date _ _ _ _ Hd).
Qed.

Lemma dates_ascending l :
  StronglySorted date_lt l -> StronglySorted Z.lt (map Date l).
Proof.
  induction 1 as [|a l Hs IH Hall]; cbn; constructor; [exact IH|].
  rewrite Forall_forall in *. intros d Hd.
  apply in_map_iff in Hd as [b [<- Hb]]. exact (Hall b Hb).
Qed.

(** X4.  A backtest that returns has made one trade per date of the frame,
    in ascending date order, whatever the order of the rows of the frame. *)
Theorem one_trade_per_date data init results fin :
  backtest data init = Ok (results, fin) ->
  map tDate results = map Date (first_candles data) /\
  StronglySorted Z.lt (map tDate results) /\
  (forall p, In p data -> In (Date p) (map tDate results)).
Proof.
  intro H. apply backtest_trace, trace_dates in H. rewrite H.
  split; [reflexivity|]. split.
  - apply dates_ascending, first_candles_strongly_sorted.
  - intros p Hp. destruct (first_of_date (Date p) data) as [row|] eqn:E.
    + assert (Hr : In row (first_candles data) /\ Date row = Date p)
        by now apply first_candles_lookup.
      destruct Hr as [Hr <-]. now apply in_map.
    + exfalso. pose proof (find_none _ _ E p Hp) as Hf. cbn in Hf.
      now rewrite Z.eqb_refl in Hf.
Qed.

Lemma one_trade_per_date_witness :
  exists results fin,
    backtest ruin_days 100000 = Ok (results, fin) /\
    map tDate results = map Date (first_candles ruin_days) /\
    StronglySorted Z.lt (map tDate results) /\
    (forall p, In p ruin_days -> In (Date p) (map tDate results)).
Proof.
  do 2 eexists. split; [vm_compute; reflexivity|].
  apply (one_trade_per_date ruin_days 100000 _ (-342857 # 1)).
  vm_compute. reflexivity.
Defined.

(** * What a backtest can raise *)






(** X6.  The summary of lines 121-128 never raises on the trade list of a
    frame that has rows: the list has one trade per date, at least one, so
    the ["Trend"] column is there and the total is positive. *)
Theorem summary_of_backtest_returns data capital0 results fin :
  data <> [] ->
  backtest data capital0 = Ok (results, fin) ->
  exists s,
    summarize results fin capital0 = Ok s /\
    (1 <= total_trades s)%nat /\
    total_trades s = List.length (first_candles data).
Proof.
  intros Hne Hb.
  pose proof (backtest_has_trades capital0 data results fin Hne Hb) as Hres.
  destruct (summarize_nonempty results fin capital0 Hres) as [s Hs].
  exists s. split; [exact Hs|].
  apply summarize_inv in Hs as [_ ->]. cbn [total_trades].
  apply backtest_trace, trace_length in Hb. rewrite Hb. split; [|reflexivity].
  apply first_candles_nonempty in Hne.
  destruct (first_candles data); [congruence|cbn; lia].
Qed.

Lemma summary_of_backtest_returns_witness :
  exists results fin s,
    backtest two_follow_days 100000 = Ok (results, fin) /\
    summarize results fin 100000 = Ok s /\
    (1 <= total_trades s)%nat /\
    total_trades s = List.length (first_candles two_follow_days).
Proof.
  assert (E : exists results fin,
             backtest two_follow_days 100000 = Ok (results, fin)).
  { do 2 eexists. vm_compute. reflexivity. }
  destruct E as [results [fin Hb]].
  destruct (summary_of_backtest_returns two_follow_days 100000 results fin)
    as [s Hs]; [discriminate|exact Hb|].
  exists results, fin, s. tauto.
Defined.

(** * Later days do not reach back *)

Lemma insert_first_after a b p :
  (forall x, In x a -> (Date x < Date p)%Z) ->
  insert_first p (a ++ b) = a ++ insert_first p b.
Proof.
  induction a as [|q a IH]; intro H; [reflexivity|]. cbn.
  pose proof (H q (or_introl eq_refl)) as Hq.
  destruct (Date p <? Date q)%Z eqn:Elt; [apply Z.ltb_lt in Elt; lia|].
  destruct (Date p =? Date q)%Z eqn:Eeq; [apply Z.eqb_eq in Eeq; lia|].
  rewrite IH; [reflexivity|]. intros x Hx. apply H. now right.
Qed.

Lemma groups_after more a : forall b,
  (forall x q, In x a -> In q more -> (Date x < Date q)%Z) ->
  fold_left (fun acc p => insert_first p acc) more (a ++ b) =
  a ++ fold_left (fun acc p => insert_first p acc) more b.
Proof.
  induction more as [|p more IH]; intros b H; [reflexivity|]. cbn.
  rewrite insert_first_after.
  - apply IH. intros x q Hx Hq. apply H; [exact Hx|now right].
  - intros x Hx. apply H; [exact Hx|now left].
Qed.

Lemma first_candles_app data more :
  (forall p q, In p data -> In q more -> (Date p < Date q)%Z) ->
  first_candles (data ++ more) = first_candles data ++ first_candles more.
Proof.
  intro H. unfold first_candles. rewrite fold_left_app.
  set (a := fold_left (fun acc p => insert_first p acc) data []).
  rewrite <- (app_nil_r a) at 1. apply groups_after.
  intros x q Hx Hq. apply H; [|exact Hq].
  now apply first_candles_In.
Qed.

Lemma day_data_left data more d :
  (forall q, In q more -> Date q <> d) ->
  day_data_of (data ++ more) d = day_data_of data d.
Proof.
  intro H. unfold day_data_of. rewrite filter_app.
  assert (E : filter (fun p => (Date p =? d)%Z) more = []).
  { induction more as [|q more IH]; [reflexivity|]. cbn.
    destruct (Date q =? d)%Z eqn:Eq.
    - apply Z.eqb_eq in Eq. exfalso. exact (H q (or_introl eq_refl) Eq).
    - apply IH. intros x Hx. apply H. now right. }
  rewrite E. apply app_nil_r.
Qed.

Lemma day_data_right data more d :
  (forall q, In q data -> Date q <> d) ->
  day_data_of (data ++ more) d = day_data_of more d.
Proof.
  intro H. unfold day_data_of. rewrite filter_app.
  assert (E : filter (fun p => (Date p =? d)%Z) data = []).
  { induction data as [|q data IH]; [reflexivity|]. cbn.
    destruct (Date q =? d)%Z eqn:Eq.
    - apply Z.eqb_eq in Eq. exfalso. exact (H q (or_introl eq_refl) Eq).
    - apply IH. intros x Hx. apply H. now right. }
  now rewrite E.
Qed.

Lemma day_loop_ext data data' rows : forall c acc,
  (forall row, In row rows ->
     day_data_of data (Date row) = day_data_of data' (Date row)) ->
  day_loop data rows c acc = day_loop data' rows c acc.
Proof.
  induction rows as [|row rows IH]; intros c acc H; [reflexivity|]. cbn.
  rewrite (H row (or_introl eq_refl)).
  destruct (day_body c row (day_data_of data' (Date row))); [|reflexivity].
  cbn [bind]. apply IH. intros r Hr. apply H. now right.
Qed.

Lemma day_loop_app data rows1 rows2 : forall c acc,
  day_loop data (rows1 ++ rows2) c acc =
  (r <- day_loop data rows1 c acc ;; day_loop data rows2 (snd r) (fst r)).
Proof.
  induction rows1 as [|row rows1 IH]; intros c acc; [reflexivity|]. cbn.
  destruct (day_body c row (day_data_of data (Date row))); [|reflexivity].
  cbn [bind]. apply IH.
Qed.

Lemma day_loop_from_nil data rows : forall c acc,
  day_loop data rows c acc =
  (r <- day_loop data rows c [] ;; Ok (acc ++ fst r, snd r)).
Proof.
  induction rows as [|row rows IH]; intros c acc; cbn.
  - now rewrite app_nil_r.
  - destruct (day_body c row (day_data_of data (Date row))) as [t|e];
      [|reflexivity].
    cbn [bind]. rewrite (IH (Capital t) (acc ++ [t])), (IH (Capital t) [t]).
    destruct (day_loop data rows (Capital t) []) as [r|e]; [|reflexivity].
    cbn. now rewrite <- app_assoc.
Qed.

(** X7.  No look-ahead.  When every row of [more] is dated after every row
    of [data], the backtest of [data ++ more] is the backtest of [data]
    followed by the backtest of [more] started from the capital the first
    one ends with: the trades of the earlier days are the same with or
    without the later rows, and so is an exception raised in them. *)
Theorem backtest_app data more init :
  (forall p q, In p data -> In q more -> (Date p < Date q)%Z) ->
  backtest (data ++ more) init =
  (r1 <- backtest data init ;;
   r2 <- backtest more (snd r1) ;;
   Ok (fst r1 ++ fst r2, snd r2)).
Proof.
  intro H. unfold backtest.
  rewrite (first_candles_app _ _ H), day_loop_app.
  rewrite (day_loop_ext (data ++ more) data (first_candles data)).
  - destruct (day_loop data (first_candles data) init []) as [[r1 f1]|e];
      [|reflexivity].
    cbn [bind fst snd].
    rewrite (day_loop_ext (data ++ more) more (first_candles more)).
    + apply day_loop_from_nil.
    + intros row Hr. apply day_data_right. intros q Hq.
      apply first_candles_In in Hr. specialize (H q row Hq Hr). lia.
  - intros row Hr. apply day_data_left. intros q Hq.
    apply first_candles_In in Hr. specialize (H row q Hr Hq). lia.
Qed.

Lemma backtest_app_witness :
  backtest ([bar 1 0 100 95 98; bar 1 1 105 97 110]
            ++ [bar 2 0 50 45 47; bar 2 1 48 40 42]) 100000 =
  (r1 <- backtest [bar 1 0 100 95 98; bar 1 1 105 97 110] 100000 ;;
   r2 <- backtest [bar 2 0 50 45 47; bar 2 1 48 40 42] (snd r1) ;;
   Ok (fst r1 ++ fst r2, snd r2)).
Proof.
  apply (backtest_app [bar 1 0 100 95 98; bar 1 1 105 97 110]
           [bar 2 0 50 45 47; bar 2 1 48 40 42] 100000).
  intros p q Hp Hq. cbn in Hp, Hq.
  destruct Hp as [<-|[<-|[]]]; destruct Hq as [<-|[<-|[]]]; reflexivity.
Defined.

(** * The capital and the PnL column *)




(** * The sign of the PnL *)

(** The quantity of a day that starts with capital [c] and enters at [e]. *)
Lemma day_body_quantity c row dd t e :
  day_body c row dd = Ok t -> Entry t = Some e ->
  Quantity t = py_int (c / e) /\
  (0 <= c -> 0 < e -> Quantity t = Qfloor (c / e) /\ (0 <= Quantity t)%Z).
Proof.
  intros H He.
  assert (Hq : Quantity t = py_int (c / e)).
  { apply day_body_inv in H as [lr [_ Hs]].
    destruct Hs as [_ _ ->|_ _ _ ->|_ _ ->]; cbn in *;
      try discriminate; now injection He as <-. }
  split; [exact Hq|]. intros Hc Hpos. rewrite Hq.
  pose proof (Qdiv_nonneg _ _ Hc Hpos) as Hd.
  rewrite (py_int_floor _ Hd). split; [reflexivity|now apply Qfloor_nonneg].
Qed.

Lemma day_body_pnl_sign c row dd t :
  day_body c row dd = Ok t ->
  0 <= c ->
  (forall e, Entry t = Some e -> 0 < e) ->
  (tTrend t = UpsideFollow \/ tTrend t = DownsideFollow -> 0 <= PnL t) /\
  (tTrend t = UpsideFake \/ tTrend t = DownsideFake -> PnL t <= 0).
Proof.
  intros H Hc Hpos.
  assert (Hq : forall e, Entry t = Some e -> 0 <= inject_Z (Quantity t)).
  { intros e He. destruct (day_body_quantity _ _ _ _ _ H He) as [_ Hq].
    destruct (Hq Hc (Hpos e He)) as [_ Hn].
    rewrite Zle_Qle in Hn. exact Hn. }
  apply day_body_inv in H as [lr [_ Hs]].
  destruct Hs as [_ _ ->|_ _ _ ->|_ _ ->]; cbn in *.
  - specialize (Hq _ eq_refl).
    destruct (Qgtb (Close lr) (High row)) eqn:E.
    + apply Qgtb_true in E. split; [intros _|intros [?|?]; discriminate].
      apply Qmult_le_0_compat; [lra|exact Hq].
    + apply Qgtb_false in E. split; [intros [?|?]; discriminate|intros _].
      assert (0 <= (High row - Close lr) * inject_Z (py_int (c / High row)))
        by (apply Qmult_le_0_compat; [lra|exact Hq]).
      lra.
  - specialize (Hq _ eq_refl).
    destruct (Qltb (Close lr) (Low row)) eqn:E.
    + apply Qltb_true in E. split; [intros _|intros [?|?]; discriminate].
      apply Qmult_le_0_compat; [lra|exact Hq].
    + apply Qltb_false in E. split; [intros [?|?]; discriminate|intros _].
      assert (0 <= (Close lr - Low row) * inject_Z (py_int (c / Low row)))
        by (apply Qmult_le_0_compat; [lra|exact Hq]).
      lra.
  - split; intros [?|?]; discriminate.
Qed.

(** X10.  With a capital that is not negative and a positive entry, a
    Follow day never loses and a Fake day never gains. *)
Theorem follow_gains_fake_loses data init results fin i t :
  backtest data init = Ok (results, fin) ->
  nth_error results i = Some t ->
  0 <= capital_before init results i ->
  (forall e, Entry t = Some e -> 0 < e) ->
  (tTrend t = UpsideFollow \/ tTrend t = DownsideFollow -> 0 <= PnL t) /\
  (tTrend t = UpsideFake \/ tTrend t = DownsideFake -> PnL t <= 0).
Proof.
  intros H Hi Hc Hpos. apply backtest_trace in H.
  destruct (trace_nth _ _ _ _ _ H i t Hi) as [row [_ Hb]].
  exact (day_body_pnl_sign _ _ _ _ Hb Hc Hpos).
Qed.

Lemma follow_gains_fake_loses_witness :
  exists results fin t,
    backtest ruin_days 100000 = Ok (results, fin) /\
    nth_error results 0 = Some t /\
    (tTrend t = UpsideFollow \/ tTrend t = DownsideFollow -> 0 <= PnL t) /\
    (tTrend t = UpsideFake \/ tTrend t = DownsideFake -> PnL t <= 0).
Proof.
  do 3 eexists. split; [vm_compute; reflexivity|].
  split; [reflexivity|].
  eapply (follow_gains_fake_loses ruin_days 100000) with (i := 0%nat).
  - vm_compute. reflexivity.
  - reflexivity.
  - vm_compute. discriminate.
  - intros e He. cbn in He. injection He as <-. reflexivity.
Defined.

(** * Rounding to two decimals *)

Lemma round_half_even_comp x y : x == y -> round_half_even x = round_half_even y.
Proof.
  intro H. unfold round_half_even. rewrite (Qfloor_comp _ _ H).
  assert (E : Qcompare (x - inject_Z (Qfloor y)) (1 # 2)
              = Qcompare (y - inject_Z (Qfloor y)) (1 # 2)).
  { apply Qcompare_comp; [|reflexivity]. now rewrite H. }
  now rewrite E.
Qed.

Lemma round_half_even_near x :
  x - (1 # 2) <= inject_Z (round_half_even x) /\
  inject_Z (round_half_even x) <= x + (1 # 2).
Proof.
  unfold round_half_even.
  pose proof (Qfloor_le x) as Hlo. pose proof (Qlt_floor x) as Hhi.
  rewrite inject_Z_plus in Hhi.
  change (inject_Z 1) with 1 in Hhi.
  destruct (Qcompare_spec (x - inject_Z (Qfloor x)) (1 # 2)) as [E|E|E].
  - destruct (Z.even (Qfloor x)).
    + split; lra.
    + rewrite inject_Z_plus. change (inject_Z 1) with 1. split; lra.
  - split; lra.
  - rewrite inject_Z_plus. change (inject_Z 1) with 1. split; lra.
Qed.

Lemma round_half_even_Z n : round_half_even (inject_Z n) = n.
Proof.
  unfold round_half_even. rewrite Qfloor_Z.
  destruct (Qcompare_spec (inject_Z n - inject_Z n) (1 # 2)) as [E|E|E].
  - exfalso. lra.
  - reflexivity.
  - exfalso. lra.
Qed.

Lemma round_half_even_bounds x a b :
  inject_Z a <= x -> x <= inject_Z b ->
  (a <= round_half_even x <= b)%Z.
Proof.
  intros Ha Hb.
  pose proof (Qfloor_resp_le _ _ Ha) as Hfa. rewrite Qfloor_Z in Hfa.
  pose proof (Qfloor_le x) as Hlo.
  unfold round_half_even.
  assert (Hnext : 1 # 2 <= x - inject_Z (Qfloor x) -> (Qfloor x + 1 <= b)%Z).
  { intro Hr. assert (Hlt : inject_Z (Qfloor x) < inject_Z b) by lra.
    rewrite <- Zlt_Qlt in Hlt. lia. }
  assert (Hfb : (Qfloor x <= b)%Z).
  { rewrite Zle_Qle. lra. }
  destruct (Qcompare_spec (x - inject_Z (Qfloor x)) (1 # 2)) as [E|E|E].
  - destruct (Z.even (Qfloor x)); [lia|].
    assert (Hn : (Qfloor x + 1 <= b)%Z) by (apply Hnext; lra). lia.
  - lia.
  - assert (Hn : (Qfloor x + 1 <= b)%Z) by (apply Hnext; lra). lia.
Qed.

(** X12.  Rounding to two decimals moves an amount by at most 0.005, and an
    amount that is already rounded stays as it is. *)
Theorem py_round2_close x :
  x - (1 # 200) <= py_round2 x /\
  py_round2 x <= x + (1 # 200) /\
  py_round2 (py_round2 x) == py_round2 x.
Proof.
  unfold py_round2.
  destruct (round_half_even_near (x * 100)) as [Hlo Hhi].
  set (n := round_half_even (x * 100)) in *.
  split; [|split].
  - apply Qle_shift_div_l; lra.
  - apply Qle_shift_div_r; lra.
  - assert (E : inject_Z n / 100 * 100 == inject_Z n) by (field; lra).
    rewrite (round_half_even_comp _ _ E), round_half_even_Z. reflexivity.
Qed.

Lemma py_round2_bounds x a b :
  inject_Z a <= x -> x <= inject_Z b ->
  inject_Z a <= py_round2 x /\ py_round2 x <= inject_Z b.
Proof.
  intros Ha Hb. unfold py_round2.
  destruct (round_half_even_bounds (x * 100) (a * 100) (b * 100)) as [Hl Hu].
  - rewrite inject_Z_mult. change (inject_Z 100) with 100. lra.
  - rewrite inject_Z_mult. change (inject_Z 100) with 100. lra.
  - rewrite Zle_Qle, inject_Z_mult in Hl, Hu.
    change (inject_Z 100) with 100 in Hl, Hu. split.
    + apply Qle_shift_div_l; lra.
    + apply Qle_shift_div_r; lra.
Qed.

(** * The master rows *)

Lemma process_symbol_inv yf_download capital0 s row :
  process_symbol yf_download capital0 s = Ok (Some row) ->
  exists data results fin,
    yf_download s = Ok data /\ data <> [] /\
    backtest data capital0 = Ok (results, fin) /\ results <> [] /\
    row = mkMasterRow s (List.length results)
            (count_trend UpsideFollow results)
            (count_trend DownsideFollow results)
            (count_trend UpsideFake results)
            (count_trend DownsideFake results)
            (py_round2 (win_rate_of (count_trend UpsideFollow results
                                     + count_trend DownsideFollow results)
                          (List.length results)))
            (py_round2 fin)
            (py_round2 (fin - capital0))
            (py_round2 (fin - capital0)).
Proof.
  unfold process_symbol. destruct (yf_download s) as [data|e]; [|discriminate].
  cbn [bind]. destruct data as [|p data]; [discriminate|].
  destruct (backtest (p :: data) capital0) as [[results fin]|e] eqn:Eb;
    [|discriminate].
  cbn [bind].
  destruct (summarize results fin capital0) as [sm|e] eqn:Es; [|discriminate].
  cbn [bind]. intro H. injection H as <-.
  apply summarize_inv in Es as [Hne ->].
  exists (p :: data), results, fin.
  repeat split; try assumption; discriminate.
Qed.

Lemma follow_le_total results :
  (count_trend UpsideFollow results + count_trend DownsideFollow results
   + count_trend UpsideFake results + count_trend DownsideFake results
   <= List.length results)%nat.
Proof.
  unfold count_trend.
  rewrite <- (length_map tTrend results), (count_trends (map tTrend results)).
  lia.
Qed.

Lemma win_rate_of_bounds f n :
  (f <= n)%nat -> 0 <= win_rate_of f n /\ win_rate_of f n <= 100.
Proof.
  intro Hfn. unfold win_rate_of. destruct (0 <? n)%nat eqn:E.
  - apply Nat.ltb_lt in E.
    assert (Hn : 0 < inject_Z (Z.of_nat n)).
    { change 0 with (inject_Z 0). rewrite <- Zlt_Qlt. lia. }
    assert (Hf : 0 <= inject_Z (Z.of_nat f)).
    { change 0 with (inject_Z 0). rewrite <- Zle_Qle. lia. }
    assert (Hle : inject_Z (Z.of_nat f) <= inject_Z (Z.of_nat n)).
    { rewrite <- Zle_Qle. lia. }
    pose proof (Qdiv_nonneg _ _ Hf Hn) as Hlo.
    assert (Hhi : inject_Z (Z.of_nat f) / inject_Z (Z.of_nat n) <= 1).
    { apply Qle_shift_div_r; [exact Hn|]. lra. }
    split; lra.
  - split; lra.
Qed.

(** X13.  Every master row carries the symbol it was made for, counts at
    least one trade, has Follow and Fake counts that add up to no more than
    its total, a win rate between 0 and 100, and the same amount in
    ["Profit"] and in ["Total Profit (Year End)"]. *)
Theorem master_row_invariants yf_download capital0 s row :
  process_symbol yf_download capital0 s = Ok (Some row) ->
  Ticker row = s /\
  (1 <= TotalTrades row)%nat /\
  (UpsideFollowCount row + DownsideFollowCount row
   + UpsideFakeCount row + DownsideFakeCount row <= TotalTrades row)%nat /\
  0 <= WinRatePct row /\ WinRatePct row <= 100 /\
  Profit row = TotalProfitYearEnd row.
Proof.
  intro H.
  apply process_symbol_inv in H
    as [data [results [fin [_ [_ [_ [Hne ->]]]]]]].
  cbn. split; [reflexivity|]. split.
  - destruct results; [congruence|cbn; lia].
  - split; [apply follow_le_total|].
    assert (Hb : 0 <= win_rate_of (count_trend UpsideFollow results
                                   + count_trend DownsideFollow results)
                        (List.length results) /\
                 win_rate_of (count_trend UpsideFollow results
                              + count_trend DownsideFollow results)
                   (List.length results) <= 100).
    { apply win_rate_of_bounds. pose proof (follow_le_total results). lia. }
    destruct Hb as [Hlo Hhi].
    destruct (py_round2_bounds _ 0 100 Hlo Hhi) as [Rlo Rhi].
    split; [exact Rlo|]. split; [exact Rhi|reflexivity].
Qed.

Lemma master_row_invariants_witness :
  exists row,
    process_symbol sample_download 100000 "A" = Ok (Some row) /\
    Ticker row = "A"%string /\
    (1 <= TotalTrades row)%nat /\
    (UpsideFollowCount row + DownsideFollowCount row
     + UpsideFakeCount row + DownsideFakeCount row <= TotalTrades row)%nat /\
    0 <= WinRatePct row /\ WinRatePct row <= 100 /\
    Profit row = TotalProfitYearEnd row.
Proof.
  eexists. split; [vm_compute; reflexivity|].
  apply (master_row_invariants sample_download 100000 "A").
  vm_compute. reflexivity.
Defined.

(** * The highlights *)

Lemma capital_green_needs_gain c p :
  capital_highlight (c + p) c = green_fill -> pnl_highlight p = green_fill.
Proof.
  unfold pnl_highlight, capital_highlight.
  destruct (Qgtb (c + p) c) eqn:E2; [|discriminate]. intros _.
  apply Qgtb_true in E2.
  destruct (Qgtb p 0) eqn:E1; [reflexivity|].
  apply Qgtb_false in E1. exfalso. apply E1. lra.
Qed.

Lemma trace_highlights data c rows ts fin :
  fold_trace data c rows ts fin ->
  forall i t, nth_error ts i = Some t ->
  exists cb row,
    nth_error (highlight_rows c ts) i
    = Some (pnl_highlight (PnL t), capital_highlight (Capital t) cb) /\
    day_body cb row (day_data_of data (Date row)) = Ok t.
Proof.
  induction 1 as [c|c row rows t ts fin Hd _ IH]; intros i u Hi.
  - destruct i; discriminate.
  - destruct i as [|i]; cbn in Hi |- *.
    + injection Hi as <-. exists c, row. split; [reflexivity|exact Hd].
    + now apply IH.
Qed.

(** X15.  In the backtest sheet the ["PnL"] cell of a row is green exactly
    when the PnL of the day is positive, the ["Capital"] cell is green only
    if the ["PnL"] cell is, and a Neutral day is red in both. *)
Theorem capital_green_only_with_gain data init results fin i t :
  backtest data init = Ok (results, fin) ->
  nth_error results i = Some t ->
  exists fp fc,
    nth_error (backtest_highlights init results) i = Some (fp, fc) /\
    (fp = green_fill <-> 0 < PnL t) /\
    (fc = green_fill -> fp = green_fill) /\
    (tTrend t = Neutral -> fp = red_fill /\ fc = red_fill).
Proof.
  intros H Hi. apply backtest_trace in H.
  destruct (trace_highlights _ _ _ _ _ H i t Hi) as [cb [row [Hn Hb]]].
  exists (pnl_highlight (PnL t)), (capital_highlight (Capital t) cb).
  split; [exact Hn|].
  pose proof (day_body_capital _ _ _ _ Hb) as Hcap.
  split; [|split].
  - unfold pnl_highlight. destruct (Qgtb (PnL t) 0) eqn:E.
    + apply Qgtb_true in E. tauto.
    + apply Qgtb_false in E. split; [discriminate|contradiction].
  - rewrite Hcap. apply capital_green_needs_gain.
  - intro Hneu. apply day_body_inv in Hb as [lr [_ Hs]].
    destruct Hs as [_ _ ->|_ _ _ ->|_ _ ->]; cbn in *.
    + destruct (Qgtb _ _); discriminate.
    + destruct (Qltb _ _); discriminate.
    + split; [reflexivity|].
      unfold capital_highlight. destruct (Qgtb (cb + 0) cb) eqn:E;
        [|reflexivity].
      apply Qgtb_true in E. exfalso. lra.
Qed.

Lemma capital_green_only_with_gain_witness :
  exists results fin t fp fc,
    backtest follow_then_quiet 100000 = Ok (results, fin) /\
    nth_error results 1 = Some t /\
    nth_error (backtest_highlights 100000 results) 1 = Some (fp, fc) /\
    (fp = green_fill <-> 0 < PnL t) /\
    (fc = green_fill -> fp = green_fill) /\
    (tTrend t = Neutral -> fp = red_fill /\ fc = red_fill).
Proof.
  assert (E : exists results fin t,
             backtest follow_then_quiet 100000 = Ok (results, fin) /\
             nth_error results 1 = Some t).
  { do 3 eexists. split; [vm_compute; reflexivity|reflexivity]. }
  destruct E as [results [fin [t [Hb Ht]]]].
  destruct (capital_green_only_with_gain
              follow_then_quiet 100000 results fin 1 t Hb Ht)
    as [fp [fc Hf]].
  exists results, fin, t, fp, fc. tauto.
Defined.

(** * The run and the master summary *)

Lemma run_cons yf_download capital0 s rest :
  run yf_download capital0 (s :: rest) =
  match process_symbol yf_download capital0 s with
  | Ok (Some row) => [row]
  | _ => []
  end ++ run yf_download capital0 rest.
Proof.
  change (s :: rest) with ([s] ++ rest). rewrite run_app.
  unfold run at 1. cbn [ticker_loop].
  now destruct (process_symbol yf_download capital0 s) as [[row|]|e].
Qed.

Lemma run_rows_of yf_download capital0 tickers :
  run yf_download capital0 tickers = rows_of yf_download capital0 tickers.
Proof.
  induction tickers as [|s rest IH]; [reflexivity|].
  rewrite run_cons, IH. reflexivity.
Qed.

(** X16.  The master results hold one row for each ticker that was processed
    to the end, in the order of the ticker list, and nothing else: a row is
    in them exactly when it is the row of some ticker of the list. *)
Theorem run_keeps_processed yf_download capital0 tickers :
  run yf_download capital0 tickers = rows_of yf_download capital0 tickers /\
  (forall row,
     In row (run yf_download capital0 tickers) <->
     exists s, In s tickers /\
               process_symbol yf_download capital0 s = Ok (Some row)) /\
  (List.length (run yf_download capital0 tickers) <= List.length tickers)%nat.
Proof.
  split; [apply run_rows_of|]. rewrite run_rows_of. split.
  - intro row. unfold rows_of. rewrite in_flat_map. split.
    + intros [s [Hs Hin]]. exists s. split; [exact Hs|].
      destruct (process_symbol yf_download capital0 s) as [[r|]|e];
        cbn in Hin; try contradiction.
      destruct Hin as [->|[]]. reflexivity.
    + intros [s [Hs Hp]]. exists s. split; [exact Hs|].
      rewrite Hp. now left.
  - induction tickers as [|s rest IH]; [cbn; lia|].
    unfold rows_of in *. cbn [flat_map]. rewrite length_app.
    destruct (process_symbol yf_download capital0 s) as [[r|]|e]; cbn; lia.
Qed.

Lemma pick_max_fold rest : forall r,
  In (fold_left pick_max rest r) (r :: rest) /\
  forall x, In x (r :: rest) ->
    FinalCapital x <= FinalCapital (fold_left pick_max rest r).
Proof.
  induction rest as [|y rest IH]; intro r; cbn [fold_left].
  - split; [now left|]. intros x [->|[]]. apply Qle_refl.
  - destruct (IH (pick_max r y)) as [Hin Hmax]. split.
    + destruct Hin as [Hin|Hin]; [|right; now right].
      rewrite <- Hin. unfold pick_max.
      destruct (Qgtb (FinalCapital y) (FinalCapital r)); cbn; auto.
    + assert (Hr : FinalCapital r <= FinalCapital (pick_max r y) /\
                   FinalCapital y <= FinalCapital (pick_max r y)).
      { unfold pick_max.
        destruct (Qgtb (FinalCapital y) (FinalCapital r)) eqn:E.
        - apply Qgtb_true in E. split; lra.
        - apply Qgtb_false in E. split; lra. }
      destruct Hr as [Hr Hy].
      pose proof (Hmax _ (or_introl eq_refl)) as Hp.
      intros x [->|[->|Hx]].
      * lra.
      * lra.
      * apply Hmax. now right.
Qed.

Lemma pick_min_fold rest : forall r,
  In (fold_left pick_min rest r) (r :: rest) /\
  forall x, In x (r :: rest) ->
    FinalCapital (fold_left pick_min rest r) <= FinalCapital x.
Proof.
  induction rest as [|y rest IH]; intro r; cbn [fold_left].
  - split; [now left|]. intros x [->|[]]. apply Qle_refl.
  - destruct (IH (pick_min r y)) as [Hin Hmin]. split.
    + destruct Hin as [Hin|Hin]; [|right; now right].
      rewrite <- Hin. unfold pick_min.
      destruct (Qltb (FinalCapital y) (FinalCapital r)); cbn; auto.
    + assert (Hr : FinalCapital (pick_min r y) <= FinalCapital r /\
                   FinalCapital (pick_min r y) <= FinalCapital y).
      { unfold pick_min.
        destruct (Qltb (FinalCapital y) (FinalCapital r)) eqn:E.
        - apply Qltb_true in E. split; lra.
        - apply Qltb_false in E. split; lra. }
      destruct Hr as [Hr Hy].
      pose proof (Hmin _ (or_introl eq_refl)) as Hp.
      intros x [->|[->|Hx]].
      * lra.
      * lra.
      * apply Hmin. now right.
Qed.

(** X17.  The best and the worst performer of a master summary are rows of
    the master results, and the final capital of every row lies between
    theirs. *)
Theorem best_and_worst_bound master_results report :
  master_summary master_results = Some report ->
  summary_rows report = master_results /\
  In (best_stock report) master_results /\
  In (worst_stock report) master_results /\
  forall row, In row master_results ->
    FinalCapital (worst_stock report) <= FinalCapital row /\
    FinalCapital row <= FinalCapital (best_stock report).
Proof.
  destruct master_results as [|r rest]; [discriminate|].
  cbn [master_summary]. intro H. injection H as <-. cbn.
  destruct (pick_max_fold rest r) as [Hbin Hmax].
  destruct (pick_min_fold rest r) as [Hwin Hmin].
  repeat split; auto.
Qed.

Lemma best_and_worst_bound_witness :
  exists report,
    master_summary (run sample_download 100000 ["A"; "B"; "A"]%string)
    = Some report /\
    summary_rows report = run sample_download 100000 ["A"; "B"; "A"]%string /\
    In (best_stock report)
       (run sample_download 100000 ["A"; "B"; "A"]%string) /\
    In (worst_stock report)
       (run sample_download 100000 ["A"; "B"; "A"]%string) /\
    forall row, In row (run sample_download 100000 ["A"; "B"; "A"]%string) ->
      FinalCapital (worst_stock report) <= FinalCapital row /\
      FinalCapital row <= FinalCapital (best_stock report).
Proof.
  eexists. split; [vm_compute; reflexivity|].
  apply (best_and_worst_bound
           (run sample_download 100000 ["A"; "B"; "A"]%string)).
  vm_compute. reflexivity.
Defined.

(** X18.  No master summary is written exactly when no ticker of the list
    was processed to the end; otherwise it has one row and one win-rate
    fill per processed ticker. *)
Theorem no_summary_iff_none_processed yf_download capital0 tickers :
  (master_summary (run yf_download capital0 tickers) = None <->
   forall s, In s tickers ->
     forall row, process_symbol yf_download capital0 s <> Ok (Some row)) /\
  (forall report,
     master_summary (run yf_download capital0 tickers) = Some report ->
     summary_rows report = run yf_download capital0 tickers /\
     List.length (win_rate_fills report)
     = List.length (run yf_download capital0 tickers)).
Proof.
  split.
  - rewrite run_rows_of. split.
    + intros H s Hs row Hp.
      assert (Hin : In row (rows_of yf_download capital0 tickers)).
      { unfold rows_of. apply in_flat_map. exists s. split; [exact Hs|].
        rewrite Hp. now left. }
      destruct (rows_of yf_download capital0 tickers); [destruct Hin|].
      discriminate.
    + intro H.
      assert (E : rows_of yf_download capital0 tickers = []).
      { induction tickers as [|s rest IH]; [reflexivity|].
        unfold rows_of in *. cbn [flat_map].
        rewrite IH; [|intros s' Hs'; apply H; now right].
        destruct (process_symbol yf_download capital0 s) as [[row|]|e] eqn:E;
          try reflexivity.
        exfalso. exact (H s (or_introl eq_refl) row E). }
      now rewrite E.
  - intros report H.
    destruct (run yf_download capital0 tickers) as [|r rest]; [discriminate|].
    cbn [master_summary] in H. injection H as <-. cbn.
    split; [reflexivity|]. now rewrite length_map.
Qed.
